(** * setup-odin: the cache-validated build orchestration of [src/index.js]

    A shallow embedding of the action's entry point [run] and of the four
    async helpers it is built from ([restoreCache], [pullOdin],
    [pullUpdates], [pullOdinBuildDependencies]), with the properties the
    specification states about them.

    The toolkit packages ([@actions/core], [@actions/exec],
    [@actions/cache], [@actions/io]) and [os.platform()] are the outside
    world.  Synchronous toolkit calls are recorded as effects, awaited
    toolkit calls are answered by a [World], and the order in which the two
    promises handed to [Promise.all] make progress is decided by a
    schedule, over which every theorem about [run] quantifies. *)

From Stdlib Require Import String Ascii List ZArith Bool Lia Permutation.
From Stdlib Require Import DecimalString.
Import ListNotations.
Open Scope string_scope.
Open Scope list_scope.

Set Implicit Arguments.

(** ** JavaScript strings and numbers *)

Module Js.

(** [s.startsWith(searchString)], the test [includes] repeats at every
    position. *)
Fixpoint startsWith (s searchString : string) : bool :=
  match searchString, s with
  | EmptyString, _ => true
  | String _ _, EmptyString => false
  | String c searchString', String d s' =>
      Ascii.eqb c d && startsWith s' searchString'
  end.

(** [s.includes(searchString)]: some position of [s] starts with
    [searchString].  The needles of this program are ASCII, for which
    containment over bytes and over UTF-16 code units coincide. *)
Fixpoint includes (s searchString : string) : bool :=
  startsWith s searchString
  || match s with
     | EmptyString => false
     | String _ s' => includes s' searchString
     end.

(** The text a template literal substitutes for a number: [`${code}`].
    This is the plain decimal text JavaScript prints for an integer below
    1e21 in absolute value, which every exit code is; beyond that
    JavaScript switches to exponent notation (see [plain_decimal]). *)
Definition number_toString (n : Z) : string :=
  NilZero.string_of_int (Z.to_int n).

(** The text a template literal substitutes for a variable that is either
    still [undefined] ([None]) or holds a number. *)
Definition template_of_number (v : option Z) : string :=
  match v with
  | None => "undefined"
  | Some n => number_toString n
  end.

(** [v !== 0] for a variable that is [undefined] or a number. *)
Definition strict_ne_zero (v : option Z) : bool :=
  match v with
  | None => true
  | Some n => negb (Z.eqb n 0)
  end.

End Js.

(** ** The outside world *)

(** An [Error] is carried by its [message], the only part the program
    reads. *)
Definition Error := string.

(** How a promise settles. *)
Inductive Settled (R : Type) : Type :=
| Fulfilled (r : R)
| Rejected (error : Error).
Arguments Rejected {R} error.

(** The value [exec.getExecOutput] resolves to. *)
Record ExecOutput := {
  exitCode : Z;
  stdout : string;
  stderr : string
}.

(** The awaited toolkit calls of [index.js], indexed by what their promise
    resolves to.  [cwd] is the only option the program ever passes. *)
Inductive Call : Type -> Type :=
| cache_restoreCache (paths : list string) (primaryKey : string)
    : Call (option string)
| exec_exec (commandLine : string) (args : list string) (cwd : option string)
    : Call Z
| exec_getExecOutput (commandLine : string) (args : list string)
    (cwd : option string) : Call ExecOutput
| io_which (tool : string) : Call string.

(** The synchronous calls into [@actions/core]. *)
Inductive Effect : Type :=
| core_addPath (inputPath : string)
| core_info (message : string)
| core_setOutput (name : string) (value : bool)
| core_saveState (name : string) (value : string)
| core_setFailed (message : string).

(** What an observer of a run sees, in order: the effects performed and the
    external calls started. *)
Inductive Event : Type :=
| Did (effect : Effect)
| Called {R : Type} (call : Call R).

(** The world answers every call with the way its promise settles: an
    [exec.exec] resolves to the exit code of the command, and any call may
    reject.  How the toolkit settles the calls of [index.js] for a command
    that fails or a tool that is missing is written down in [Toolkit].  No
    call is issued twice in one run, so a function of the call is
    enough. *)
Definition World := forall R : Type, Call R -> Settled R.

(** ** Async functions *)

(** The body of an async function: it returns, throws, performs a
    synchronous effect, or suspends on an awaited call and goes on with the
    way the call settled. *)
Inductive Async (A : Type) : Type :=
| Ret (a : A)
| Throw (error : Error)
| Sync (effect : Effect) (k : Async A)
| Await {R : Type} (call : Call R) (k : Settled R -> Async A).
Arguments Throw {A} error.
Arguments Sync {A} effect k.

Fixpoint bind {A B : Type} (t : Async A) (f : A -> Async B) : Async B :=
  match t with
  | Ret a => f a
  | Throw error => Throw error
  | Sync effect k => Sync effect (bind k f)
  | Await call k => Await call (fun settled => bind (k settled) f)
  end.

(** [await call]: a rejection is thrown at the [await]. *)
Definition await {R : Type} (call : Call R) : Async R :=
  Await call (fun settled =>
    match settled with
    | Fulfilled r => Ret r
    | Rejected error => Throw error
    end).

(** A statement that calls into [@actions/core]. *)
Definition perform (effect : Effect) : Async unit := Sync effect (Ret tt).

Declare Scope async_scope.
Delimit Scope async_scope with async.
Notation "x <- t ;; k" := (bind t (fun x => k))
  (at level 61, t at next level, right associativity) : async_scope.
Notation "t ;; k" := (bind t (fun _ => k))
  (at level 61, right associativity) : async_scope.
Open Scope async_scope.

(** A promise under way: settled, or suspended on a call whose answer has
    not arrived yet. *)
Inductive Fiber (A : Type) : Type :=
| Done (settled : Settled A)
| Blocked {R : Type} (call : Call R) (k : Settled R -> Async A).
Arguments Blocked {A R} call k.

(** Calling an async function runs its body synchronously up to the first
    [await]; the awaited call is started there. *)
Fixpoint advance {A : Type} (t : Async A) : list Event * Fiber A :=
  match t with
  | Ret a => ([], Done (Fulfilled a))
  | Throw error => ([], Done (Rejected error))
  | Sync effect k =>
      let (events, fiber) := advance k in (Did effect :: events, fiber)
  | Await call k => ([Called call], Blocked call k)
  end.

Section Semantics.

Variable W : World.

(** An async function run on its own until its promise settles. *)
Fixpoint settle {A : Type} (t : Async A) : list Event * Settled A :=
  match t with
  | Ret a => ([], Fulfilled a)
  | Throw error => ([], Rejected error)
  | Sync effect k =>
      let (events, settled) := settle k in (Did effect :: events, settled)
  | Await call k =>
      let (events, settled) := settle (k (W call)) in
      (Called call :: events, settled)
  end.

(** The awaited call settles and the function runs on to its next
    [await]. *)
Definition resume {A : Type} (fiber : Fiber A) : list Event * Fiber A :=
  match fiber with
  | Done settled => ([], Done settled)
  | Blocked call k => advance (k (W call))
  end.

(** What is left of a promise under way, run on its own. *)
Definition finish {A : Type} (fiber : Fiber A) : list Event * Settled A :=
  match fiber with
  | Done settled => ([], settled)
  | Blocked call k => settle (k (W call))
  end.

Definition pending {A : Type} (fiber : Fiber A) : bool :=
  match fiber with
  | Done _ => false
  | Blocked _ _ => true
  end.

(** The outcome of [await Promise.all([p1, p2])]: the events up to the
    moment the combined promise settles, how it settles, and the events
    of the promise that is still under way when the other one rejects.
    Nothing cancels that promise: it runs on after the [await] has
    thrown. *)
Record Joined (A B : Type) : Type := {
  before : list Event;
  settled_as : Settled (A * B);
  after : list Event
}.

Definition led_by {A B : Type} (events : list Event) (j : Joined A B)
  : Joined A B :=
  {| before := events ++ before j;
     settled_as := settled_as j;
     after := after j |}.

(** With the schedule used up, the first promise runs to its end before
    the second one. *)
Definition join_in_order {A B : Type} (f1 : Fiber A) (f2 : Fiber B)
  : Joined A B :=
  let (events1, settled1) := finish f1 in
  match settled1 with
  | Rejected error =>
      {| before := events1; settled_as := Rejected error;
         after := fst (finish f2) |}
  | Fulfilled a =>
      let (events2, settled2) := finish f2 in
      {| before := events1 ++ events2;
         settled_as := match settled2 with
                       | Fulfilled b => Fulfilled (a, b)
                       | Rejected error => Rejected error
                       end;
         after := [] |}
  end.

(** [Promise.all] rejects as soon as one promise has rejected and
    fulfils once both have.  While neither is the case, the next entry
    of the schedule says which suspended promise hears from its call
    first: [true] for the first one, [false] for the second; a promise
    that is already fulfilled cannot be picked. *)
Fixpoint join {A B : Type} (schedule : list bool)
  (f1 : Fiber A) (f2 : Fiber B) : Joined A B :=
  match f1, f2 with
  | Done (Rejected error), _ =>
      {| before := []; settled_as := Rejected error;
         after := fst (finish f2) |}
  | _, Done (Rejected error) =>
      {| before := []; settled_as := Rejected error;
         after := fst (finish f1) |}
  | Done (Fulfilled a), Done (Fulfilled b) =>
      {| before := []; settled_as := Fulfilled (a, b); after := [] |}
  | _, _ =>
      match schedule with
      | [] => join_in_order f1 f2
      | first :: schedule' =>
          if (first && pending f1) || negb (pending f2)
          then let (events, f1') := resume f1 in
               led_by events (join schedule' f1' f2)
          else let (events, f2') := resume f2 in
               led_by events (join schedule' f1 f2')
      end
  end.

(** [Promise.all([t1, t2])]: both async functions are called, in this
    order, and their promises are joined. *)
Definition Promise_all {A B : Type} (schedule : list bool)
  (t1 : Async A) (t2 : Async B) : Joined A B :=
  let (events1, f1) := advance t1 in
  let (events2, f2) := advance t2 in
  led_by (events1 ++ events2) (join schedule f1 f2).

End Semantics.

(** [j] is a way for two promises to run together, given what each does
    when run alone: the events are those of the two runs, and the
    combined promise settles as [Promise.all] prescribes. *)
Definition joins (A B : Type) (j : Joined A B)
  (r1 : list Event * Settled A) (r2 : list Event * Settled B) : Prop :=
  Permutation (before j ++ after j) (fst r1 ++ fst r2)
  /\ match snd r1, snd r2 with
     | Fulfilled a, Fulfilled b =>
         settled_as j = Fulfilled (a, b) /\ after j = []
     | Rejected x, Fulfilled _ => settled_as j = Rejected x
     | Fulfilled _, Rejected y => settled_as j = Rejected y
     | Rejected x, Rejected y =>
         settled_as j = Rejected x \/ settled_as j = Rejected y
     end.

(** ** The module [./common] *)

Open Scope string_scope.

(** Modelled from the spec: the [Inputs] typedef of [./common], which is not
    part of the sources at hand.  [index.js] reads [repository],
    [odinVersion], [llvmVersion] and [buildType]; the data model of the
    specification adds the cache flag. *)
Record Inputs := {
  repository : string;
  odinVersion : string;
  llvmVersion : string;
  buildType : string;
  cacheCheck : bool
}.

(** The functions of [./common] that [index.js] calls, taken as parameters.
    [common.getInputs()] returns the inputs ([inr]) or throws ([inl]). *)
Record Common := {
  common_getInputs : Error + Inputs;
  common_odinPath : string;
  common_cacheCheck : Inputs -> bool;
  common_composeCacheKey : Inputs -> string;
  common_cachePaths : list string
}.

(** ** The program *)

Section Program.

Variable common : Common.

(** [os.platform()] *)
Variable os_platform : string.

(** [key === restoredKey], where [restoredKey] is a string or
    [undefined]. *)
Definition key_strict_eq (key : string) (restoredKey : option string)
  : bool :=
  match restoredKey with
  | Some restored => String.eqb key restored
  | None => false
  end.

Definition git_clone (repository version : string) : Call Z :=
  exec_exec "git"
    ["clone"; repository; common_odinPath common; "--branch"; version;
     "--depth=1"; "--single-branch"; "--no-tags"]
    None.

Definition pullOdin (repository version : string) : Async unit :=
  code <- await (git_clone repository version) ;;
  if negb (Z.eqb code 0)
  then Throw ("Git clone failed with exit code: "
              ++ Js.number_toString code
              ++ ", are you sure that version exists?")
  else Ret tt.

Definition git_pull (path version : string) : Call ExecOutput :=
  exec_getExecOutput "git" ["pull"; "origin"; version] (Some path).

Definition pullUpdates (path version : string) : Async bool :=
  output <- await (git_pull path version) ;;
  Ret (Js.includes (stdout output) "Already up to date.").

Definition restoreCache (inputs : Inputs) (odinPath : string)
  : Async bool :=
  let key := common_composeCacheKey common inputs in
  restoredKey <- await (cache_restoreCache (common_cachePaths common) key) ;;
  if key_strict_eq key restoredKey
  then
    perform (core_info "Cache HIT, checking if it is still up-to-date") ;;
    upToDate <- pullUpdates odinPath (odinVersion inputs) ;;
    if upToDate : bool
    then
      perform (core_info "Cache is still up-to-date") ;;
      perform (core_setOutput "cache-hit" true) ;;
      perform (core_saveState "cache-hit" "true") ;;
      perform (core_info "Successfully set up Odin compiler") ;;
      Ret true
    else
      perform (core_info
                 "Cache is not up-to-date, rebuilding the compiler now") ;;
      Ret false
  else
    perform (core_info "Cache MISS") ;;
    pullOdin (repository inputs) (odinVersion inputs) ;;
    Ret false.

Definition brew_install (llvm : string) : Call Z :=
  exec_exec "brew" ["install"; "llvm@" ++ llvm] None.

Definition apt_install (llvm : string) : Call Z :=
  exec_exec "sudo"
    ["apt-fast"; "install"; "llvm-" ++ llvm ++ "-dev"; "clang-" ++ llvm]
    None.

(** The check after the [switch]: [if (code !== 0) throw ...]. *)
Definition check_install (code : Z) : Async unit :=
  if negb (Z.eqb code 0)
  then Throw ("Installing Odin dependencies failed with exit code: "
              ++ Js.number_toString code)
  else Ret tt.

Definition pullOdinBuildDependencies (llvm : string) : Async unit :=
  if String.eqb os_platform "darwin" then
    let path := "/usr/local/opt/llvm@" ++ llvm ++ "/bin" in
    perform (core_addPath path) ;;
    code <- await (brew_install llvm) ;;
    check_install code
  else if String.eqb os_platform "linux" then
    (* io.which(...).then(...).catch(async () => ...) *)
    code <- Await (io_which ("llvm-" ++ llvm)) (fun found =>
              match found with
              | Fulfilled _ =>
                  perform (core_info ("LLVM " ++ llvm
                             ++ " comes pre-installed on this runner")) ;;
                  Ret 0%Z
              | Rejected _ => await (apt_install llvm)
              end) ;;
    check_install code
  else if String.eqb os_platform "win32" then
    Ret tt
  else
    Throw ("Operating system " ++ os_platform
           ++ " is not supported by setup-odin").

Definition build_command (script : string) (inputs : Inputs)
  (odinPath : string) : Call Z :=
  exec_exec script [buildType inputs] (Some odinPath).

(** Lines 34 to 59 of [run]: what follows the two branches of the cache
    check. *)
Definition build (inputs : Inputs) (odinPath : string) : Async unit :=
  perform (core_setOutput "cache-hit" false) ;;
  perform (core_saveState "cache-hit" "false") ;;
  buildExitCode <-
    (if String.eqb os_platform "darwin" || String.eqb os_platform "linux"
     then code <- await (build_command "./build_odin.sh" inputs odinPath) ;;
          Ret (Some code)
     else if String.eqb os_platform "win32"
     then code <- await (build_command "./build.bat" inputs odinPath) ;;
          Ret (Some code)
     else Ret None) ;;
  if Js.strict_ne_zero buildExitCode
  then Throw ("Building Odin failed with exit code: "
              ++ Js.template_of_number buildExitCode)
  else perform (core_info "Successfully set up Odin compiler").

Variable W : World.

(** [catch (error) { core.setFailed(error.message) }] around a part of
    the body that ran on its own. *)
Definition or_setFailed {A : Type} (r : list Event * Settled A)
  : list Event :=
  let (events, settled) := r in
  (events ++ match settled with
             | Fulfilled _ => []
             | Rejected error => [Did (core_setFailed error)]
             end)%list.

(** The events of one run of the action, in order.  When [Promise.all]
    rejects, the handler reports the failure and [run] is over; the events
    of the promise that had not settled by then follow. *)
Definition run (schedule : list bool) : list Event :=
  match common_getInputs common with
  | inl error => [Did (core_setFailed error)]
  | inr inputs =>
      let odinPath := common_odinPath common in
      Did (core_addPath odinPath) ::
      if common_cacheCheck common inputs
      then
        let all := Promise_all W schedule
                     (restoreCache inputs odinPath)
                     (pullOdinBuildDependencies (llvmVersion inputs)) in
        (before all ++
         match settled_as all with
         | Fulfilled (cacheSuccess, _) =>
             if cacheSuccess : bool
             then []
             else or_setFailed (settle W (build inputs odinPath))
         | Rejected error => Did (core_setFailed error) :: after all
         end)%list
      else
        let all := Promise_all W schedule
                     (pullOdin (repository inputs) (odinVersion inputs))
                     (pullOdinBuildDependencies (llvmVersion inputs)) in
        (before all ++
         match settled_as all with
         | Fulfilled _ => or_setFailed (settle W (build inputs odinPath))
         | Rejected error => Did (core_setFailed error) :: after all
         end)%list
  end.

End Program.

(** The query [restoreCache] sends to the cache store. *)
Definition requested_key (common : Common) (inputs : Inputs)
  : Call (option string) :=
  cache_restoreCache (common_cachePaths common)
    (common_composeCacheKey common inputs).

(** The promise that [run] joins with the dependency installation, with the
    answer the code that follows draws from it: [cacheSuccess] when the
    cache is checked, and nothing that could stop the build ([false]) when
    it is not. *)
Definition checkout (common : Common) (inputs : Inputs) : Async bool :=
  if common_cacheCheck common inputs
  then restoreCache common inputs (common_odinPath common)
  else pullOdin common (repository inputs) (odinVersion inputs) ;; Ret false.

(** ** What a run is observed to do *)

Definition count (p : Event -> bool) (trace : list Event) : nat :=
  length (filter p trace).

(** The external build command was started. *)
Definition is_build (event : Event) : bool :=
  match event with
  | Called call =>
      match call with
      | exec_exec commandLine _ _ =>
          String.eqb commandLine "./build_odin.sh"
          || String.eqb commandLine "./build.bat"
      | _ => false
      end
  | Did _ => false
  end.

(** [git clone] was started. *)
Definition is_clone (event : Event) : bool :=
  match event with
  | Called call =>
      match call with
      | exec_exec commandLine (arg :: _) _ =>
          String.eqb commandLine "git" && String.eqb arg "clone"
      | _ => false
      end
  | Did _ => false
  end.

(** [git pull] was started. *)
Definition is_pull (event : Event) : bool :=
  match event with
  | Called call =>
      match call with
      | exec_getExecOutput commandLine (arg :: _) _ =>
          String.eqb commandLine "git" && String.eqb arg "pull"
      | _ => false
      end
  | Did _ => false
  end.

(** The cache store was queried. *)
Definition is_cache_query (event : Event) : bool :=
  match event with
  | Called call =>
      match call with
      | cache_restoreCache _ _ => true
      | _ => false
      end
  | Did _ => false
  end.

(** A package manager was started. *)
Definition is_install (event : Event) : bool :=
  match event with
  | Called call =>
      match call with
      | exec_exec commandLine _ _ =>
          String.eqb commandLine "brew" || String.eqb commandLine "sudo"
      | _ => false
      end
  | Did _ => false
  end.

(** The run was reported as failed. *)
Definition is_setFailed (event : Event) : bool :=
  match event with
  | Did (core_setFailed _) => true
  | _ => false
  end.

(** The [cache-hit] output was set to [value]. *)
Definition sets_cache_hit (value : bool) (event : Event) : bool :=
  match event with
  | Did (core_setOutput name v) =>
      String.eqb name "cache-hit" && Bool.eqb v value
  | _ => false
  end.

(** The [cache-hit] state was saved as [value]. *)
Definition saves_cache_hit (value : string) (event : Event) : bool :=
  match event with
  | Did (core_saveState name v) =>
      String.eqb name "cache-hit" && String.eqb v value
  | _ => false
  end.

(** The [cache-hit] output or the [cache-hit] state was written, with
    whatever value. *)
Definition is_cache_hit_report (event : Event) : bool :=
  match event with
  | Did (core_setOutput name _) => String.eqb name "cache-hit"
  | Did (core_saveState name _) => String.eqb name "cache-hit"
  | _ => false
  end.

(** The command line, arguments and working directory of a started
    [exec.exec]. *)
Definition started_command (event : Event)
  : option (string * list string * option string) :=
  match event with
  | Called call =>
      match call with
      | exec_exec commandLine args cwd => Some (commandLine, args, cwd)
      | _ => None
      end
  | Did _ => None
  end.

(** [io.which] was asked for a tool. *)
Definition is_which (event : Event) : bool :=
  match event with
  | Called call =>
      match call with
      | io_which _ => true
      | _ => false
      end
  | Did _ => false
  end.

(** A directory was added to the execution path. *)
Definition is_addPath (event : Event) : bool :=
  match event with
  | Did (core_addPath _) => true
  | _ => false
  end.

(** The closing message of lines 59 and 81 was logged. *)
Definition is_success_info (event : Event) : bool :=
  match event with
  | Did (core_info message) =>
      String.eqb message "Successfully set up Odin compiler"
  | _ => false
  end.

(** The script the [switch] of lines 38 to 54 starts on a host. *)
Definition build_script (platform : string) : string :=
  if String.eqb platform "win32" then "./build.bat" else "./build_odin.sh".

(** A run succeeded when it never called [core.setFailed]. *)
Definition succeeded (trace : list Event) : bool :=
  Nat.eqb (count is_setFailed trace) 0.

(** The host systems the two [switch] statements know. *)
Definition supported (platform : string) : bool :=
  String.eqb platform "darwin" || String.eqb platform "linux"
  || String.eqb platform "win32".

(** ** Sample runs *)

Module Sample.

Definition inputs (cache : bool) : Inputs :=
  {| repository := "https://example/compiler";
     odinVersion := "v1.2.0";
     llvmVersion := "17";
     buildType := "release";
     cacheCheck := cache |}.

Definition common (cache : bool) : Common :=
  {| common_getInputs := inr (inputs cache);
     common_odinPath := "/home/runner/odin";
     common_cacheCheck := cacheCheck;
     common_composeCacheKey := fun i =>
       repository i ++ "-" ++ odinVersion i ++ "-" ++ buildType i;
     common_cachePaths := ["/home/runner/odin"] |}.

Definition key : string := "https://example/compiler-v1.2.0-release".

(** A world in which the cache store restores [restored], [git pull]
    prints [pulled], [git clone] exits with [clone], the package managers
    with [install], the build script with [built], and [io.which] finds
    the tool when [found] holds. *)
Definition world (restored : option string) (pulled : string)
  (clone install built : Z) (found : bool) : World :=
  fun R call =>
    match call in Call R return Settled R with
    | cache_restoreCache _ _ => Fulfilled restored
    | exec_exec commandLine _ _ =>
        Fulfilled (if String.eqb commandLine "git" then clone
                   else if String.eqb commandLine "brew" then install
                   else if String.eqb commandLine "sudo" then install
                   else built)
    | exec_getExecOutput _ _ _ =>
        Fulfilled {| exitCode := 0; stdout := pulled; stderr := "" |}
    | io_which tool =>
        if found then Fulfilled ("/usr/bin/" ++ tool)
        else Rejected ("Unable to locate executable file: " ++ tool)
    end.

Definition up_to_date : string := "Already up to date.".

Definition fast_forward : string :=
  "Updating 1a2b3c4 to 5d6e7f8, Fast-forward".

End Sample.

(** Worlds in which a service is down. *)
Module Outage.

(** The cache store rejects the query; every command exits with 0. *)
Definition cache_store : World :=
  fun R call =>
    match call in Call R return Settled R with
    | cache_restoreCache _ _ => Rejected "Cache service responded with 503"
    | exec_exec _ _ _ => Fulfilled 0%Z
    | exec_getExecOutput _ _ _ =>
        Fulfilled {| exitCode := 0; stdout := Sample.up_to_date;
                     stderr := "" |}
    | io_which tool => Fulfilled ("/usr/bin/" ++ tool)
    end.

(** The requested key is restored, but [git pull] cannot reach the
    remote and its promise rejects. *)
Definition remote : World :=
  fun R call =>
    match call in Call R return Settled R with
    | cache_restoreCache _ _ => Fulfilled (Some Sample.key)
    | exec_exec _ _ _ => Fulfilled 0%Z
    | exec_getExecOutput _ _ _ =>
        Rejected "The process '/usr/bin/git' failed with exit code 1"
    | io_which tool => Fulfilled ("/usr/bin/" ++ tool)
    end.

End Outage.

(** ** The toolkit as [index.js] calls it *)

(** The integers that JavaScript prints in plain decimal, as
    [Js.number_toString] does. *)
Definition plain_decimal (n : Z) : Prop := (Z.abs n < 10 ^ 21)%Z.

(** [@actions/exec] and [@actions/io] are not part of the repository.
    [index.js] calls [exec.exec] without [ignoreReturnCode] and [io.which]
    without [check]; this is what the two calls then do. *)
Module Toolkit.

(** The error of [exec.exec] for a command that exited with a code other
    than zero when [ignoreReturnCode] is not set. *)
Definition exec_failure (toolPath : string) (exitCode : Z) : Error :=
  "The process '" ++ toolPath ++ "' failed with exit code "
  ++ Js.number_toString exitCode.

(** How the promise of [exec.exec] settles for a command that exits with
    [exitCode]: it resolves to the code when that is zero or
    [ignoreReturnCode] is set, and rejects otherwise. *)
Definition exec_settles (ignoreReturnCode : bool) (toolPath : string)
  (exitCode : Z) : Settled Z :=
  if ignoreReturnCode || Z.eqb exitCode 0
  then Fulfilled exitCode
  else Rejected (exec_failure toolPath exitCode).

(** How the promise of [io.which(tool)] settles without [check]: it
    resolves to the path of the tool, and to the empty string when the
    tool is not found. *)
Definition which_settles (found : option string) : Settled string :=
  Fulfilled match found with
            | Some path => path
            | None => ""
            end.

(** The world of [Sample.world] behind the toolkit: the cache store
    restores [restored], [git pull] prints [pulled], [git clone] exits
    with [clone], the package managers with [install], the build script
    with [built], and the tool asked for is on the path when [found]
    holds. *)
Definition world (restored : option string) (pulled : string)
  (clone install built : Z) (found : bool) : World :=
  fun R call =>
    match call in Call R return Settled R with
    | cache_restoreCache _ _ => Fulfilled restored
    | exec_exec commandLine _ _ =>
        exec_settles false commandLine
          (if String.eqb commandLine "git" then clone
           else if String.eqb commandLine "brew" then install
           else if String.eqb commandLine "sudo" then install
           else built)
    | exec_getExecOutput _ _ _ =>
        Fulfilled {| exitCode := 0; stdout := pulled; stderr := "" |}
    | io_which tool =>
        which_settles (if found then Some ("/usr/bin/" ++ tool) else None)
    end.

End Toolkit.

(** ** Tactics *)

(** Case analysis on what the world answers and on the tests that follow. *)
Ltac answer W :=
  repeat first
    [ progress cbn
    | match goal with
      | |- context [W ?R ?c] => destruct (W R c) as [?|?] eqn:?
      | |- context [if ?b then _ else _] => destruct b eqn:?
      end ].

(** ** Strings *)

Section Strings.

Lemma startsWith_append (searchString rest : string) :
  Js.startsWith (searchString ++ rest) searchString = true.
Proof.
  induction searchString as [|c searchString IH]; simpl.
  - destruct rest; reflexivity.
  - rewrite Ascii.eqb_refl. exact IH.
Qed.

Lemma startsWith_inv (searchString s : string) :
  Js.startsWith s searchString = true ->
  exists rest, s = searchString ++ rest.
Proof.
  revert s.
  induction searchString as [|c searchString IH]; intros s H; simpl in *.
  - exists s. reflexivity.
  - destruct s as [|d s]; [discriminate|].
    apply andb_true_iff in H. destruct H as [Hc Hs].
    apply Ascii.eqb_eq in Hc. subst d.
    destruct (IH s Hs) as [rest ->].
    exists rest. reflexivity.
Qed.

Lemma append_assoc (a b c : string) : (a ++ b) ++ c = a ++ (b ++ c).
Proof.
  induction a as [|x a IH]; simpl; [reflexivity|].
  rewrite IH. reflexivity.
Qed.

Lemma append_empty_r (a : string) : a ++ "" = a.
Proof.
  induction a as [|x a IH]; simpl; [reflexivity|].
  rewrite IH. reflexivity.
Qed.

Lemma includes_startsWith (s searchString : string) :
  Js.startsWith s searchString = true ->
  Js.includes s searchString = true.
Proof. destruct s; simpl; intros ->; reflexivity. Qed.

(** [includes] decides whether [searchString] occurs in [s]. *)
Lemma includes_spec (s searchString : string) :
  Js.includes s searchString = true <->
  exists before_ after_, s = before_ ++ searchString ++ after_.
Proof.
  split.
  - induction s as [|c s IH]; cbn [Js.includes]; intros H.
    + rewrite orb_false_r in H.
      apply startsWith_inv in H. destruct H as [rest H].
      exists "", rest. exact H.
    + apply orb_true_iff in H. destruct H as [H|H].
      * apply startsWith_inv in H. destruct H as [rest H].
        exists "", rest. exact H.
      * destruct (IH H) as (b & a & ->).
        exists (String c b), a. reflexivity.
  - intros (b & a & ->).
    induction b as [|c b IH]; cbn [append Js.includes].
    + apply includes_startsWith, startsWith_append.
    + rewrite IH. apply orb_true_r.
Qed.

Lemma includes_middle (before_ searchString after_ : string) :
  Js.includes (before_ ++ searchString ++ after_) searchString = true.
Proof. apply includes_spec. exists before_, after_. reflexivity. Qed.

Lemma includes_tail (before_ searchString : string) :
  Js.includes (before_ ++ searchString) searchString = true.
Proof.
  rewrite <- (append_empty_r searchString) at 1.
  apply includes_middle.
Qed.

End Strings.

(** ** Counting events *)

Open Scope list_scope.

Section Counting.

Variable p : Event -> bool.

Lemma count_app (l l' : list Event) :
  count p (l ++ l') = count p l + count p l'.
Proof. unfold count. rewrite filter_app, length_app. reflexivity. Qed.

Lemma count_cons (event : Event) (l : list Event) :
  count p (event :: l) = (if p event then 1 else 0) + count p l.
Proof. unfold count. simpl. destruct (p event); reflexivity. Qed.

Lemma count_Permutation (l l' : list Event) :
  Permutation l l' -> count p l = count p l'.
Proof.
  induction 1 as [|x l l' _ IH|x y l|l l' l'' _ IH1 _ IH2].
  - reflexivity.
  - rewrite !count_cons, IH. reflexivity.
  - rewrite !count_cons. lia.
  - congruence.
Qed.

Lemma count_zero_In (l : list Event) (event : Event) :
  count p l = 0 -> In event l -> p event = false.
Proof.
  induction l as [|x l IH]; intros H Hin; [destruct Hin|].
  rewrite count_cons in H. destruct Hin as [->|Hin].
  - destruct (p event); [discriminate|reflexivity].
  - apply IH; [lia|exact Hin].
Qed.

End Counting.

(** ** Promises run together and run alone *)

Section Joining.

Variable W : World.

Lemma settle_advance (A : Type) (t : Async A) :
  settle W t
  = (fst (advance t) ++ fst (finish W (snd (advance t))),
     snd (finish W (snd (advance t)))).
Proof.
  induction t as [a|error|effect k IH|R call k _]; simpl.
  - reflexivity.
  - reflexivity.
  - rewrite IH. destruct (advance k) as [events fiber]. reflexivity.
  - destruct (settle W (k (W call))). reflexivity.
Qed.

Lemma finish_resume (A : Type) (fiber : Fiber A) :
  finish W fiber
  = (fst (resume W fiber) ++ fst (finish W (snd (resume W fiber))),
     snd (finish W (snd (resume W fiber)))).
Proof.
  destruct fiber as [settled|R call k]; simpl.
  - reflexivity.
  - apply settle_advance.
Qed.

Lemma joins_led_by_left (A B : Type) (j : Joined A B)
  (events events1 : list Event) (s1 : Settled A)
  (r2 : list Event * Settled B) :
  joins j (events1, s1) r2 ->
  joins (led_by events j) (events ++ events1, s1) r2.
Proof.
  unfold joins. simpl. intros [Hperm Hsettled]. split.
  - rewrite <- !app_assoc. apply Permutation_app_head. exact Hperm.
  - exact Hsettled.
Qed.

Lemma joins_led_by_right (A B : Type) (j : Joined A B)
  (events events2 : list Event) (s2 : Settled B)
  (r1 : list Event * Settled A) :
  joins j r1 (events2, s2) ->
  joins (led_by events j) r1 (events ++ events2, s2).
Proof.
  unfold joins. simpl. intros [Hperm Hsettled]. split.
  - rewrite <- app_assoc.
    transitivity (events ++ fst r1 ++ events2).
    + apply Permutation_app_head. exact Hperm.
    + rewrite !app_assoc. apply Permutation_app_tail.
      apply Permutation_app_comm.
  - exact Hsettled.
Qed.

Lemma join_in_order_joins (A B : Type) (f1 : Fiber A) (f2 : Fiber B) :
  joins (join_in_order W f1 f2) (finish W f1) (finish W f2).
Proof.
  unfold join_in_order, joins.
  destruct (finish W f1) as [events1 [a|x]];
    destruct (finish W f2) as [events2 [b|y]]; simpl;
    rewrite ?app_nil_r; auto.
Qed.

Lemma join_step_joins (A B : Type) (first : bool) (schedule : list bool)
  (f1 : Fiber A) (f2 : Fiber B) :
  (forall (g1 : Fiber A) (g2 : Fiber B),
      joins (join W schedule g1 g2) (finish W g1) (finish W g2)) ->
  joins (if (first && pending f1) || negb (pending f2)
         then let (events, f1') := resume W f1 in
              led_by events (join W schedule f1' f2)
         else let (events, f2') := resume W f2 in
              led_by events (join W schedule f1 f2'))
        (finish W f1) (finish W f2).
Proof.
  intros IH.
  destruct ((first && pending f1) || negb (pending f2)).
  - rewrite (finish_resume f1).
    specialize (IH (snd (resume W f1)) f2).
    destruct (resume W f1) as [events f1']. simpl in *.
    destruct (finish W f1') as [events1 s1].
    apply joins_led_by_left. exact IH.
  - rewrite (finish_resume f2).
    specialize (IH f1 (snd (resume W f2))).
    destruct (resume W f2) as [events f2']. simpl in *.
    destruct (finish W f2') as [events2 s2].
    apply joins_led_by_right. exact IH.
Qed.

Lemma join_joins (A B : Type) (schedule : list bool) :
  forall (f1 : Fiber A) (f2 : Fiber B),
    joins (join W schedule f1 f2) (finish W f1) (finish W f2).
Proof.
  induction schedule as [|first schedule IH]; intros f1 f2.
  - destruct f1 as [[a|x]|R1 c1 k1]; destruct f2 as [[b|y]|R2 c2 k2];
      try match goal with
          | |- joins (join W _ ?g1 ?g2) _ _ =>
              exact (join_in_order_joins g1 g2)
          end;
      unfold joins; simpl;
      repeat match goal with
             | |- context [settle W ?t] => destruct (settle W t) as [? [?|?]]
             end; simpl; rewrite ?app_nil_r; auto.
  - destruct f1 as [[a|x]|R1 c1 k1]; destruct f2 as [[b|y]|R2 c2 k2];
      try match goal with
          | |- joins (join W _ ?g1 ?g2) _ _ =>
              exact (join_step_joins first _ g1 g2 IH)
          end;
      unfold joins; simpl;
      repeat match goal with
             | |- context [settle W ?t] => destruct (settle W t) as [? [?|?]]
             end; simpl; rewrite ?app_nil_r; auto.
Qed.

(** Whatever the schedule, [Promise.all] does what its two promises do
    when run alone, in some interleaving. *)
Lemma Promise_all_joins (A B : Type) (schedule : list bool)
  (t1 : Async A) (t2 : Async B) :
  joins (Promise_all W schedule t1 t2) (settle W t1) (settle W t2).
Proof.
  unfold Promise_all.
  rewrite (settle_advance t1), (settle_advance t2).
  pose proof (join_joins schedule (snd (advance t1)) (snd (advance t2)))
    as H.
  destruct (advance t1) as [events1 f1].
  destruct (advance t2) as [events2 f2]. simpl in *.
  destruct (finish W f1) as [rest1 s1].
  destruct (finish W f2) as [rest2 s2].
  apply (joins_led_by_left events1) in H.
  apply (joins_led_by_right events2) in H.
  destruct H as [Hperm Hsettled]. split.
  - simpl in *. etransitivity; [|exact Hperm].
    rewrite !app_assoc. do 2 apply Permutation_app_tail.
    apply Permutation_app_comm.
  - exact Hsettled.
Qed.

End Joining.

(** ** The async functions run alone *)

Section Alone.

Variable common : Common.
Variable os_platform : string.
Variable W : World.

Lemma pullOdin_events (repository version : string) :
  fst (settle W (pullOdin common repository version))
  = [Called (git_clone common repository version)].
Proof. unfold pullOdin. answer W; reflexivity. Qed.

Lemma pullUpdates_events (path version : string) :
  fst (settle W (pullUpdates path version)) = [Called (git_pull path version)].
Proof. unfold pullUpdates. answer W; reflexivity. Qed.

Lemma dependencies_quiet (llvm : string) :
  let events := fst (settle W (pullOdinBuildDependencies os_platform llvm)) in
  count is_build events = 0 /\ count is_clone events = 0
  /\ count is_pull events = 0 /\ count is_cache_query events = 0
  /\ count is_cache_hit_report events = 0
  /\ count is_setFailed events = 0
  /\ (forall v, count (sets_cache_hit v) events = 0)
  /\ (forall v, count (saves_cache_hit v) events = 0).
Proof.
  unfold pullOdinBuildDependencies, check_install.
  answer W; repeat split; reflexivity.
Qed.

Lemma dependencies_supported (llvm : string) (events : list Event) :
  settle W (pullOdinBuildDependencies os_platform llvm)
  = (events, Fulfilled tt) ->
  supported os_platform = true.
Proof.
  unfold pullOdinBuildDependencies, supported.
  destruct (String.eqb os_platform "darwin"); [reflexivity|].
  destruct (String.eqb os_platform "linux"); [reflexivity|].
  destruct (String.eqb os_platform "win32"); [reflexivity|].
  cbn. discriminate.
Qed.

Lemma dependencies_unsupported (llvm : string) :
  supported os_platform = false ->
  advance (pullOdinBuildDependencies os_platform llvm)
  = ([], Done (Rejected ("Operating system " ++ os_platform
                         ++ " is not supported by setup-odin")%string)).
Proof.
  unfold pullOdinBuildDependencies, supported.
  destruct (String.eqb os_platform "darwin"); [discriminate|].
  destruct (String.eqb os_platform "linux"); [discriminate|].
  destruct (String.eqb os_platform "win32"); [discriminate|].
  reflexivity.
Qed.

(** [restoreCache], whatever the world answers. *)
Lemma restoreCache_quiet (inputs : Inputs) (odinPath : string) :
  let events := fst (settle W (restoreCache common inputs odinPath)) in
  count is_build events = 0 /\ count is_install events = 0
  /\ count is_setFailed events = 0
  /\ count is_cache_query events = 1
  /\ count (sets_cache_hit false) events = 0
  /\ count (saves_cache_hit "false") events = 0.
Proof.
  unfold restoreCache, pullUpdates, pullOdin.
  answer W; repeat split; reflexivity.
Qed.

(** The two reports of a hit are written together, and only by a
    [restoreCache] that goes on to return [true]. *)
Lemma restoreCache_reports (inputs : Inputs) (odinPath : string) :
  let r := settle W (restoreCache common inputs odinPath) in
  match snd r with
  | Fulfilled true =>
      count (sets_cache_hit true) (fst r) = 1
      /\ count (saves_cache_hit "true") (fst r) = 1
      /\ count is_clone (fst r) = 0
  | _ =>
      count is_cache_hit_report (fst r) = 0
      /\ count (sets_cache_hit true) (fst r) = 0
      /\ count (saves_cache_hit "true") (fst r) = 0
  end.
Proof.
  unfold restoreCache, pullUpdates, pullOdin.
  answer W; repeat split; reflexivity.
Qed.

(** A restored key equal to the requested one, and a pull that reports
    the checkout as current. *)
Lemma restoreCache_confirmed (inputs : Inputs) (odinPath : string) :
  W (requested_key common inputs)
  = Fulfilled (Some (common_composeCacheKey common inputs)) ->
  snd (settle W (pullUpdates odinPath (odinVersion inputs)))
  = Fulfilled true ->
  settle W (restoreCache common inputs odinPath)
  = ([Called (requested_key common inputs);
      Did (core_info "Cache HIT, checking if it is still up-to-date");
      Called (git_pull odinPath (odinVersion inputs));
      Did (core_info "Cache is still up-to-date");
      Did (core_setOutput "cache-hit" true);
      Did (core_saveState "cache-hit" "true");
      Did (core_info "Successfully set up Odin compiler")],
     Fulfilled true).
Proof.
  unfold restoreCache, pullUpdates, requested_key. intros Hkey.
  cbn. rewrite Hkey. cbn. rewrite String.eqb_refl. cbn.
  destruct (W (git_pull odinPath (odinVersion inputs))) as [output|error];
    cbn; [|discriminate].
  intros Hcurrent. injection Hcurrent as ->. reflexivity.
Qed.

(** A restored key equal to the requested one, and a pull that brought
    changes. *)
Lemma restoreCache_stale (inputs : Inputs) (odinPath : string) :
  W (requested_key common inputs)
  = Fulfilled (Some (common_composeCacheKey common inputs)) ->
  snd (settle W (pullUpdates odinPath (odinVersion inputs)))
  = Fulfilled false ->
  settle W (restoreCache common inputs odinPath)
  = ([Called (requested_key common inputs);
      Did (core_info "Cache HIT, checking if it is still up-to-date");
      Called (git_pull odinPath (odinVersion inputs));
      Did (core_info
             "Cache is not up-to-date, rebuilding the compiler now")],
     Fulfilled false).
Proof.
  unfold restoreCache, pullUpdates, requested_key. intros Hkey.
  cbn. rewrite Hkey. cbn. rewrite String.eqb_refl. cbn.
  destruct (W (git_pull odinPath (odinVersion inputs))) as [output|error];
    cbn; [|discriminate].
  intros Hstale. injection Hstale as ->. reflexivity.
Qed.

(** No restored key, or another one than the requested key. *)
Lemma restoreCache_miss (inputs : Inputs) (odinPath : string)
  (restoredKey : option string) :
  W (requested_key common inputs) = Fulfilled restoredKey ->
  key_strict_eq (common_composeCacheKey common inputs) restoredKey
  = false ->
  let clone := settle W (pullOdin common (repository inputs)
                         (odinVersion inputs)) in
  settle W (restoreCache common inputs odinPath)
  = (Called (requested_key common inputs) :: Did (core_info "Cache MISS")
     :: fst clone,
     match snd clone with
     | Fulfilled _ => Fulfilled false
     | Rejected error => Rejected error
     end).
Proof.
  unfold restoreCache, requested_key, pullOdin. intros Hkey Hmiss.
  cbn. rewrite Hkey. cbn. rewrite Hmiss. answer W; reflexivity.
Qed.

(** The events of lines 34 to 59, whatever the build does. *)
Lemma build_quiet (inputs : Inputs) (odinPath : string) :
  let events := or_setFailed (settle W (build os_platform inputs odinPath)) in
  count is_clone events = 0 /\ count is_pull events = 0
  /\ count is_cache_query events = 0 /\ count is_install events = 0
  /\ count (sets_cache_hit false) events = 1
  /\ count (saves_cache_hit "false") events = 1
  /\ count (sets_cache_hit true) events = 0
  /\ count (saves_cache_hit "true") events = 0.
Proof.
  unfold build, build_command.
  answer W; repeat split; reflexivity.
Qed.

Lemma build_once (inputs : Inputs) (odinPath : string) :
  supported os_platform = true ->
  count is_build
    (or_setFailed (settle W (build os_platform inputs odinPath))) = 1.
Proof.
  unfold build, build_command, supported.
  destruct (String.eqb os_platform "darwin");
    destruct (String.eqb os_platform "linux");
    destruct (String.eqb os_platform "win32");
    try discriminate; intros _; answer W; reflexivity.
Qed.

End Alone.

(** ** The shape of a run *)

Section Shape.

Variable common : Common.
Variable os_platform : string.
Variable W : World.

Lemma checkout_quiet (inputs : Inputs) :
  let events := fst (settle W (checkout common inputs)) in
  count is_build events = 0 /\ count is_install events = 0
  /\ count is_setFailed events = 0
  /\ count (sets_cache_hit false) events = 0
  /\ count (saves_cache_hit "false") events = 0.
Proof.
  unfold checkout. destruct (common_cacheCheck common inputs).
  - pose proof (restoreCache_quiet common W inputs (common_odinPath common))
      as H. cbv zeta in *. tauto.
  - unfold pullOdin. answer W; repeat split; reflexivity.
Qed.

Lemma checkout_reports (inputs : Inputs) :
  let r := settle W (checkout common inputs) in
  match snd r with
  | Fulfilled true =>
      count (sets_cache_hit true) (fst r) = 1
      /\ count (saves_cache_hit "true") (fst r) = 1
  | _ =>
      count is_cache_hit_report (fst r) = 0
      /\ count (sets_cache_hit true) (fst r) = 0
      /\ count (saves_cache_hit "true") (fst r) = 0
  end.
Proof.
  unfold checkout. destruct (common_cacheCheck common inputs).
  - pose proof (restoreCache_reports common W inputs
                  (common_odinPath common)) as H.
    cbv zeta in *.
    destruct (snd (settle W (restoreCache common inputs
                             (common_odinPath common)))) as [[|]|];
      tauto.
  - unfold pullOdin. answer W; repeat split; reflexivity.
Qed.

Lemma settle_then_false (t : Async unit) :
  settle W (t ;; Ret false)
  = (fst (settle W t),
     match snd (settle W t) with
     | Fulfilled _ => Fulfilled false
     | Rejected error => Rejected error
     end).
Proof.
  induction t as [a|error|effect k IH|R call k IH]; cbn.
  - reflexivity.
  - reflexivity.
  - rewrite IH. destruct (settle W k). reflexivity.
  - rewrite IH. destruct (settle W (k (W call))). reflexivity.
Qed.

(** The events of a run are the first [core.addPath], those of the two
    joined promises, and between them what [run] itself does once
    [Promise.all] has settled: nothing on a confirmed hit, the build and
    its report otherwise, and [core.setFailed] when one of the two
    rejected. *)
Lemma run_shape (schedule : list bool) (inputs : Inputs) :
  common_getInputs common = inr inputs ->
  let r1 := settle W (checkout common inputs) in
  let r2 := settle W (pullOdinBuildDependencies os_platform
                      (llvmVersion inputs)) in
  exists joined tail background : list Event,
    run common os_platform W schedule
    = Did (core_addPath (common_odinPath common))
      :: joined ++ tail ++ background
    /\ Permutation (joined ++ background) (fst r1 ++ fst r2)
    /\ match snd r1, snd r2 with
       | Fulfilled cacheSuccess, Fulfilled _ =>
           background = []
           /\ tail = if cacheSuccess : bool
                     then []
                     else or_setFailed
                            (settle W (build os_platform inputs
                                       (common_odinPath common)))
       | Rejected x, Fulfilled _ => tail = [Did (core_setFailed x)]
       | Fulfilled _, Rejected y => tail = [Did (core_setFailed y)]
       | Rejected x, Rejected y =>
           tail = [Did (core_setFailed x)]
           \/ tail = [Did (core_setFailed y)]
       end.
Proof.
  intros Hinputs. unfold run, checkout. rewrite Hinputs.
  destruct (common_cacheCheck common inputs).
  - pose proof (Promise_all_joins W schedule
                  (restoreCache common inputs (common_odinPath common))
                  (pullOdinBuildDependencies os_platform
                     (llvmVersion inputs))) as [Hperm Hsettled].
    cbv zeta.
    set (all := Promise_all W schedule _ _) in *.
    destruct (snd (settle W (restoreCache common inputs
                             (common_odinPath common)))) as [success|x];
      destruct (snd (settle W (pullOdinBuildDependencies os_platform
                               (llvmVersion inputs)))) as [[]|y].
    + destruct Hsettled as [-> Hafter].
      eexists (before all), _, []. rewrite app_nil_r.
      split; [reflexivity|]. rewrite Hafter in Hperm. auto.
    + rewrite Hsettled.
      exists (before all), [Did (core_setFailed y)], (after all). auto.
    + rewrite Hsettled.
      exists (before all), [Did (core_setFailed x)], (after all). auto.
    + destruct Hsettled as [-> | ->].
      * exists (before all), [Did (core_setFailed x)], (after all). auto.
      * exists (before all), [Did (core_setFailed y)], (after all). auto.
  - pose proof (Promise_all_joins W schedule
                  (pullOdin common (repository inputs)
                     (odinVersion inputs))
                  (pullOdinBuildDependencies os_platform
                     (llvmVersion inputs))) as [Hperm Hsettled].
    cbv zeta. rewrite settle_then_false. cbn [fst snd].
    set (all := Promise_all W schedule _ _) in *.
    destruct (snd (settle W (pullOdin common (repository inputs)
                             (odinVersion inputs)))) as [[]|x];
      destruct (snd (settle W (pullOdinBuildDependencies os_platform
                               (llvmVersion inputs)))) as [[]|y].
    + destruct Hsettled as [-> Hafter].
      eexists (before all), _, []. rewrite app_nil_r.
      split; [reflexivity|]. rewrite Hafter in Hperm. auto.
    + rewrite Hsettled.
      exists (before all), [Did (core_setFailed y)], (after all). auto.
    + rewrite Hsettled.
      exists (before all), [Did (core_setFailed x)], (after all). auto.
    + destruct Hsettled as [-> | ->].
      * exists (before all), [Did (core_setFailed x)], (after all). auto.
      * exists (before all), [Did (core_setFailed y)], (after all). auto.
Qed.

(** Counting over a run: the joined promises count as when run alone. *)
Lemma count_run (p : Event -> bool) (a : Event)
  (joined tail background events1 events2 : list Event) :
  Permutation (joined ++ background) (events1 ++ events2) ->
  count p (a :: joined ++ tail ++ background)
  = count p [a] + count p events1 + count p events2 + count p tail.
Proof.
  intros Hperm.
  change (a :: joined ++ tail ++ background)
    with ([a] ++ joined ++ tail ++ background).
  rewrite !count_app.
  apply (count_Permutation p) in Hperm. rewrite !count_app in Hperm.
  lia.
Qed.

(** On a host that is not supported the dependency installation has
    rejected before the other promise hears from its first call: the
    failure is reported right after that call was started. *)
Lemma run_unsupported (schedule : list bool) (inputs : Inputs) :
  common_getInputs common = inr inputs ->
  supported os_platform = false ->
  exists (started : Event) (background : list Event),
    run common os_platform W schedule
    = Did (core_addPath (common_odinPath common))
      :: started
      :: Did (core_setFailed ("Operating system " ++ os_platform
                              ++ " is not supported by setup-odin")%string)
      :: background.
Proof.
  intros Hinputs Hplatform. unfold run, Promise_all.
  rewrite Hinputs, (dependencies_unsupported _ _ Hplatform).
  destruct schedule; destruct (common_cacheCheck common inputs);
    cbn; eexists _, _; reflexivity.
Qed.

Lemma tail_of_settled (inputs : Inputs) (tail background : list Event)
  (s1 : Settled bool) (s2 : Settled unit) :
  match s1, s2 with
  | Fulfilled cacheSuccess, Fulfilled _ =>
      background = []
      /\ tail = if cacheSuccess : bool
                then []
                else or_setFailed
                       (settle W (build os_platform inputs
                                  (common_odinPath common)))
  | Rejected x, Fulfilled _ => tail = [Did (core_setFailed x)]
  | Fulfilled _, Rejected y => tail = [Did (core_setFailed y)]
  | Rejected x, Rejected y =>
      tail = [Did (core_setFailed x)] \/ tail = [Did (core_setFailed y)]
  end ->
  tail = []
  \/ (exists error, tail = [Did (core_setFailed error)])
  \/ tail = or_setFailed (settle W (build os_platform inputs
                                    (common_odinPath common))).
Proof.
  destruct s1 as [[|]|x]; destruct s2 as [[]|y]; intros H.
  - destruct H as [_ H]. auto.
  - eauto.
  - destruct H as [_ H]. auto.
  - eauto.
  - eauto.
  - destruct H as [H|H]; eauto.
Qed.

(** What [run] does itself after [Promise.all] starts no clone, no pull,
    no cache query and no package manager. *)
Lemma tail_cases (inputs : Inputs) (tail : list Event) :
  tail = []
  \/ (exists error, tail = [Did (core_setFailed error)])
  \/ tail = or_setFailed (settle W (build os_platform inputs
                                    (common_odinPath common))) ->
  count is_clone tail = 0 /\ count is_pull tail = 0
  /\ count is_cache_query tail = 0 /\ count is_install tail = 0.
Proof.
  intros [->|[[error ->]| ->]]; [repeat split..|].
  pose proof (build_quiet os_platform W inputs (common_odinPath common))
    as H. cbv zeta in H. tauto.
Qed.

Lemma build_started (inputs : Inputs) (odinPath : string) :
  supported os_platform = true ->
  exists script : string,
    In (Called (build_command script inputs odinPath))
       (or_setFailed (settle W (build os_platform inputs odinPath))).
Proof.
  unfold build, supported.
  destruct (String.eqb os_platform "darwin");
    destruct (String.eqb os_platform "linux");
    destruct (String.eqb os_platform "win32");
    try discriminate; intros _; eexists;
    answer W; right; right; left; reflexivity.
Qed.

Lemma build_failure (inputs : Inputs) (odinPath script : string)
  (args : list string) (cwd : option string) (N : Z) :
  In (Called (exec_exec script args cwd))
     (or_setFailed (settle W (build os_platform inputs odinPath))) ->
  W (exec_exec script args cwd) = Fulfilled N ->
  N <> 0%Z ->
  exists events : list Event,
    or_setFailed (settle W (build os_platform inputs odinPath))
    = events ++ [Did (core_setFailed
                        ("Building Odin failed with exit code: "
                         ++ Js.number_toString N)%string)].
Proof.
  intros Hin Hcode HN. apply Z.eqb_neq in HN.
  revert Hin. unfold build, build_command.
  destruct (String.eqb os_platform "darwin" || String.eqb os_platform "linux");
    [|destruct (String.eqb os_platform "win32")]; cbn.
  - destruct (W (exec_exec "./build_odin.sh" [buildType inputs]
                   (Some odinPath))) as [code|error] eqn:Hbuilt; cbn;
      [destruct (negb (Z.eqb code 0)) eqn:Hzero; cbn|];
      intros [H|[H|[H|H]]]; try discriminate H;
      try (apply (f_equal started_command) in H; cbn in H;
           injection H as <- <- <-;
           rewrite Hbuilt in Hcode;
           first [discriminate Hcode | injection Hcode as ->]);
      try (destruct H as [H|[]]; discriminate H);
      try contradiction.
    + eexists [_; _; _]. reflexivity.
    + rewrite HN in Hzero. discriminate.
  - destruct (W (exec_exec "./build.bat" [buildType inputs]
                   (Some odinPath))) as [code|error] eqn:Hbuilt; cbn;
      [destruct (negb (Z.eqb code 0)) eqn:Hzero; cbn|];
      intros [H|[H|[H|H]]]; try discriminate H;
      try (apply (f_equal started_command) in H; cbn in H;
           injection H as <- <- <-;
           rewrite Hbuilt in Hcode;
           first [discriminate Hcode | injection Hcode as ->]);
      try (destruct H as [H|[]]; discriminate H);
      try contradiction.
    + eexists [_; _; _]. reflexivity.
    + rewrite HN in Hzero. discriminate.
  - intros [H|[H|[H|[]]]]; discriminate H.
Qed.

End Shape.

(** ** The properties of the specification *)

Section Claims.

Variable common : Common.
Variable os_platform : string.
Variable W : World.

(** C1, as the code has it.  With the cache checked, the requested key
    restored and the pull reporting the checkout as current, a run sets
    the [cache-hit] output to [true], and never to [false], saves the
    state [cache-hit] as "true" and never starts the build.  It succeeds
    exactly when the dependency installation that runs beside the cache
    restoration succeeds: a failure of that installation is reported. *)
Theorem confirmed_hit_skips_build (schedule : list bool)
  (inputs : Inputs) :
  common_getInputs common = inr inputs ->
  common_cacheCheck common inputs = true ->
  W (requested_key common inputs)
  = Fulfilled (Some (common_composeCacheKey common inputs)) ->
  snd (settle W (pullUpdates (common_odinPath common) (odinVersion inputs)))
  = Fulfilled true ->
  let trace := run common os_platform W schedule in
  count (sets_cache_hit true) trace = 1
  /\ count (sets_cache_hit false) trace = 0
  /\ count (saves_cache_hit "true") trace = 1
  /\ count is_build trace = 0
  /\ (succeeded trace = true <->
      snd (settle W (pullOdinBuildDependencies os_platform
                     (llvmVersion inputs))) = Fulfilled tt).
Proof.
  intros Hinputs Hcache Hkey Hcurrent trace. subst trace.
  destruct (@run_shape common os_platform W schedule inputs Hinputs)
    as (joined & tail & background & Hrun & Hperm & Htail).
  pose proof (dependencies_quiet os_platform W (llvmVersion inputs))
    as (Hbuild & _ & _ & _ & _ & Hfailed & Hsets & Hsaves).
  pose proof (@restoreCache_confirmed common W inputs (common_odinPath common)
                Hkey Hcurrent) as Hcheckout.
  cbv zeta in *. unfold checkout in Hperm, Htail.
  rewrite Hcache, Hcheckout in Hperm, Htail.
  cbn [fst snd] in Hperm, Htail.
  unfold succeeded. rewrite Hrun.
  rewrite !(fun p a tail => @count_run p a _ tail _ _ _ Hperm).
  rewrite Hbuild, Hfailed, !Hsets, Hsaves.
  destruct (snd (settle W (pullOdinBuildDependencies os_platform
                           (llvmVersion inputs)))) as [[]|error].
  - destruct Htail as [_ ->]. cbn. repeat split; reflexivity.
  - rewrite Htail. cbn. repeat split; try reflexivity; discriminate.
Qed.

(** C2, as the code has it.  When the dependency installation fails
    while the cache restoration confirms a hit, [Promise.all] rejects
    with the installation's error and the run is reported as failed with
    it: the failure is not discarded.  No build is started, and
    [cache-hit] has been set to [true]. *)
Theorem dependency_failure_fails_confirmed_hit (schedule : list bool)
  (inputs : Inputs) (error : Error) :
  common_getInputs common = inr inputs ->
  common_cacheCheck common inputs = true ->
  snd (settle W (restoreCache common inputs (common_odinPath common)))
  = Fulfilled true ->
  snd (settle W (pullOdinBuildDependencies os_platform
                     (llvmVersion inputs))) = Rejected error ->
  let trace := run common os_platform W schedule in
  succeeded trace = false
  /\ In (Did (core_setFailed error)) trace
  /\ count is_setFailed trace = 1
  /\ count is_build trace = 0
  /\ count (sets_cache_hit true) trace = 1.
Proof.
  intros Hinputs Hcache Hhit Hdeps trace. subst trace.
  destruct (@run_shape common os_platform W schedule inputs Hinputs)
    as (joined & tail & background & Hrun & Hperm & Htail).
  pose proof (dependencies_quiet os_platform W (llvmVersion inputs))
    as (Hbuild2 & _ & _ & _ & _ & Hfailed2 & Hsets2 & _).
  pose proof (checkout_quiet common W inputs)
    as (Hbuild1 & _ & Hfailed1 & _).
  pose proof (checkout_reports common W inputs) as Hreports.
  assert (Hcheckout : snd (settle W (checkout common inputs))
                      = Fulfilled true).
  { unfold checkout. rewrite Hcache. exact Hhit. }
  cbv zeta in *. rewrite Hcheckout in Htail, Hreports.
  rewrite Hdeps in Htail. destruct Hreports as [Hsets1 _].
  unfold succeeded. rewrite Hrun.
  rewrite !(fun p a tail => @count_run p a _ tail _ _ _ Hperm).
  rewrite Hbuild1, Hbuild2, Hfailed1, Hfailed2, Hsets1, Hsets2, Htail.
  repeat split; try reflexivity.
  right. apply in_or_app. right. left. reflexivity.
Qed.

(** C3, as the code has it.  With the cache checked, the requested key
    restored, the pull reporting that it brought changes and the
    dependency installation succeeding, a run sets [cache-hit] to
    [false], and never to [true], and starts the build exactly once, in
    the checkout that was pulled, without any clone. *)
Theorem stale_hit_rebuilds (schedule : list bool) (inputs : Inputs) :
  common_getInputs common = inr inputs ->
  common_cacheCheck common inputs = true ->
  W (requested_key common inputs)
  = Fulfilled (Some (common_composeCacheKey common inputs)) ->
  snd (settle W (pullUpdates (common_odinPath common) (odinVersion inputs)))
  = Fulfilled false ->
  snd (settle W (pullOdinBuildDependencies os_platform
                     (llvmVersion inputs))) = Fulfilled tt ->
  let trace := run common os_platform W schedule in
  count (sets_cache_hit false) trace = 1
  /\ count (sets_cache_hit true) trace = 0
  /\ count is_build trace = 1
  /\ count is_clone trace = 0
  /\ count is_pull trace = 1
  /\ In (Called (git_pull (common_odinPath common) (odinVersion inputs))) trace
  /\ exists script : string,
      In (Called (build_command script inputs (common_odinPath common))) trace.
Proof.
  intros Hinputs Hcache Hkey Hstale Hdeps trace. subst trace.
  destruct (@run_shape common os_platform W schedule inputs Hinputs)
    as (joined & tail & background & Hrun & Hperm & Htail).
  pose proof (dependencies_quiet os_platform W (llvmVersion inputs))
    as (Hbuild & Hclone & Hpull & _ & _ & _ & Hsets & _).
  pose proof (@restoreCache_stale common W inputs (common_odinPath common)
                Hkey Hstale) as Hcheckout.
  assert (Hsupported : supported os_platform = true).
  { apply (@dependencies_supported os_platform W (llvmVersion inputs)
             (fst (settle W (pullOdinBuildDependencies os_platform
                     (llvmVersion inputs))))).
    rewrite <- Hdeps. apply surjective_pairing. }
  cbv zeta in *. unfold checkout in Hperm, Htail.
  rewrite Hcache, Hcheckout in Hperm, Htail.
  rewrite Hdeps in Htail. cbn [fst snd] in Hperm, Htail.
  destruct Htail as [-> ->].
  pose proof (build_quiet os_platform W inputs (common_odinPath common))
    as (Hclone' & Hpull' & _ & _ & Hmiss' & _ & Hhit' & _).
  pose proof (@build_once os_platform W inputs (common_odinPath common)
                Hsupported) as Hbuild'.
  destruct (@build_started os_platform W inputs (common_odinPath common)
              Hsupported) as [script Hscript].
  rewrite Hrun.
  rewrite !(fun p a tail => @count_run p a _ tail _ _ _ Hperm).
  rewrite Hbuild, Hclone, Hpull, !Hsets, Hclone', Hpull', Hmiss',
    Hhit', Hbuild'.
  repeat split; try reflexivity.
  - right. apply in_or_app. left. rewrite app_nil_r in Hperm.
    apply (Permutation_in _ (Permutation_sym Hperm)).
    apply in_or_app. left. right. right. left. reflexivity.
  - exists script. right. apply in_or_app. right.
    apply in_or_app. left. exact Hscript.
Qed.

(** C4, as the code has it.  With the cache checked and the cache store
    returning no key, or another key than the requested one, a run starts
    [git clone] once and never [git pull].  When the clone and the
    dependency installation both succeed, the build is started once, and
    after the clone. *)
Theorem miss_clones_then_builds (schedule : list bool) (inputs : Inputs)
  (restoredKey : option string) :
  common_getInputs common = inr inputs ->
  common_cacheCheck common inputs = true ->
  W (requested_key common inputs) = Fulfilled restoredKey ->
  restoredKey <> Some (common_composeCacheKey common inputs) ->
  let trace := run common os_platform W schedule in
  count is_clone trace = 1
  /\ count is_pull trace = 0
  /\ (snd (settle W (pullOdin common (repository inputs)
                     (odinVersion inputs))) = Fulfilled tt ->
      snd (settle W (pullOdinBuildDependencies os_platform
                     (llvmVersion inputs))) = Fulfilled tt ->
      count is_build trace = 1
      /\ exists before_build from_build : list Event,
          trace = before_build ++ from_build
          /\ count is_clone before_build = 1
          /\ count is_build before_build = 0
          /\ count is_build from_build = 1).
Proof.
  intros Hinputs Hcache Hkey Hother trace. subst trace.
  assert (Hmiss : key_strict_eq (common_composeCacheKey common inputs)
                    restoredKey = false).
  { destruct restoredKey as [restored|]; [|reflexivity].
    apply String.eqb_neq. congruence. }
  destruct (@run_shape common os_platform W schedule inputs Hinputs)
    as (joined & tail & background & Hrun & Hperm & Htail).
  pose proof (dependencies_quiet os_platform W (llvmVersion inputs))
    as (Hbuild2 & Hclone2 & Hpull2 & _).
  pose proof (checkout_quiet common W inputs) as (Hbuild1 & _).
  pose proof (@restoreCache_miss common W inputs (common_odinPath common)
                restoredKey Hkey Hmiss) as Hcheckout.
  cbv zeta in *. unfold checkout in Hperm, Htail, Hbuild1.
  rewrite Hcache in Hperm, Htail, Hbuild1.
  rewrite Hcheckout in Hperm, Htail, Hbuild1.
  rewrite pullOdin_events in Hperm, Hbuild1.
  cbn [fst snd] in Hperm, Htail, Hbuild1.
  pose proof (@tail_of_settled common os_platform W inputs _ _ _ _ Htail)
    as Hcases.
  apply tail_cases in Hcases. destruct Hcases as (Hclone' & Hpull' & _).
  rewrite Hrun.
  rewrite !(fun p a tail => @count_run p a _ tail _ _ _ Hperm).
  rewrite Hclone2, Hpull2, Hclone', Hpull'.
  split; [reflexivity|]. split; [reflexivity|].
  intros Hcloned Hdeps.
  assert (Hsupported : supported os_platform = true).
  { apply (@dependencies_supported os_platform W (llvmVersion inputs)
             (fst (settle W (pullOdinBuildDependencies os_platform
                     (llvmVersion inputs))))).
    rewrite <- Hdeps. apply surjective_pairing. }
  rewrite Hcloned, Hdeps in Htail. destruct Htail as [-> ->].
  pose proof (@build_once os_platform W inputs (common_odinPath common)
                Hsupported) as Hbuild'.
  rewrite Hbuild1, Hbuild2, Hbuild'. split; [reflexivity|].
  exists (Did (core_addPath (common_odinPath common)) :: joined),
    (or_setFailed
       (settle W (build os_platform inputs (common_odinPath common)))).
  rewrite !app_nil_r in *.
  pose proof (count_Permutation is_clone Hperm) as Hc.
  pose proof (count_Permutation is_build Hperm) as Hb.
  rewrite count_app in Hc, Hb. rewrite Hclone2 in Hc.
  rewrite Hbuild1, Hbuild2 in Hb.
  split; [reflexivity|].
  split; [rewrite count_cons, Hc; reflexivity|].
  split; [rewrite count_cons, Hb; reflexivity|].
  exact Hbuild'.
Qed.

(** C5, as the code has it.  With the cache not checked, a run starts
    [git clone] once and never queries the cache store or pulls, whatever
    the store would have answered.  When the clone and the dependency
    installation both succeed, the build is started once. *)
Theorem disabled_cache_clones_and_builds (schedule : list bool)
  (inputs : Inputs) :
  common_getInputs common = inr inputs ->
  common_cacheCheck common inputs = false ->
  let trace := run common os_platform W schedule in
  count is_clone trace = 1
  /\ count is_cache_query trace = 0
  /\ count is_pull trace = 0
  /\ (snd (settle W (pullOdin common (repository inputs)
                     (odinVersion inputs))) = Fulfilled tt ->
      snd (settle W (pullOdinBuildDependencies os_platform
                     (llvmVersion inputs))) = Fulfilled tt ->
      count is_build trace = 1).
Proof.
  intros Hinputs Hcache trace. subst trace.
  destruct (@run_shape common os_platform W schedule inputs Hinputs)
    as (joined & tail & background & Hrun & Hperm & Htail).
  pose proof (dependencies_quiet os_platform W (llvmVersion inputs))
    as (Hbuild2 & Hclone2 & Hpull2 & Hquery2 & _).
  pose proof (checkout_quiet common W inputs) as (Hbuild1 & _).
  cbv zeta in *. unfold checkout in Hperm, Htail, Hbuild1.
  rewrite Hcache in Hperm, Htail, Hbuild1.
  rewrite settle_then_false in Hperm, Htail, Hbuild1.
  rewrite pullOdin_events in Hperm, Hbuild1.
  cbn [fst snd] in Hperm, Htail, Hbuild1.
  pose proof (@tail_of_settled common os_platform W inputs _ _ _ _ Htail)
    as Hcases.
  apply tail_cases in Hcases.
  destruct Hcases as (Hclone' & Hpull' & Hquery' & _).
  rewrite Hrun.
  rewrite !(fun p a tail => @count_run p a _ tail _ _ _ Hperm).
  rewrite Hclone2, Hpull2, Hquery2, Hclone', Hpull', Hquery'.
  repeat split; try reflexivity.
  intros Hcloned Hdeps.
  assert (Hsupported : supported os_platform = true).
  { apply (@dependencies_supported os_platform W (llvmVersion inputs)
             (fst (settle W (pullOdinBuildDependencies os_platform
                     (llvmVersion inputs))))).
    rewrite <- Hdeps. apply surjective_pairing. }
  rewrite Hcloned, Hdeps in Htail. destruct Htail as [_ ->].
  rewrite (@build_once os_platform W inputs (common_odinPath common)
             Hsupported).
  rewrite Hbuild2. reflexivity.
Qed.

(** C6.  [pullUpdates] returns [true] if and only if the standard output
    captured from [git pull] contains the text "Already up to date.".
    The pull is the only call it makes and its output the only thing it
    looks at: no timestamp and no commit hash is compared. *)
Theorem pullUpdates_true_iff_output_says_so (path version : string)
  (output : ExecOutput) :
  W (git_pull path version) = Fulfilled output ->
  exists alreadyCurrent : bool,
    settle W (pullUpdates path version)
    = ([Called (git_pull path version)], Fulfilled alreadyCurrent)
    /\ (alreadyCurrent = true <->
        exists before_ after_ : string,
          stdout output
          = (before_ ++ "Already up to date." ++ after_)%string).
Proof.
  intros Hpull. unfold pullUpdates. cbn. rewrite Hpull. cbn.
  eexists. split; [reflexivity|]. apply includes_spec.
Qed.

(** C8.  On a host system that is none of darwin, linux and win32,
    [pullOdinBuildDependencies] throws the unsupported-platform error
    before its first [await], with no effect and no call made; every run
    on such a host is reported as failed, with that error when the inputs
    could be read, and starts neither a package manager nor the
    build. *)
Theorem unsupported_platform_fails_before_build (llvm : string) :
  os_platform <> "darwin" ->
  os_platform <> "linux" ->
  os_platform <> "win32" ->
  let message := ("Operating system " ++ os_platform
                  ++ " is not supported by setup-odin")%string in
  advance (pullOdinBuildDependencies os_platform llvm)
  = ([], Done (Rejected message))
  /\ forall schedule : list bool,
      let trace := run common os_platform W schedule in
      succeeded trace = false
      /\ count is_build trace = 0
      /\ count is_install trace = 0
      /\ (forall inputs : Inputs,
            common_getInputs common = inr inputs ->
            In (Did (core_setFailed message)) trace).
Proof.
  intros Hdarwin Hlinux Hwin32 message.
  assert (Hplatform : supported os_platform = false).
  { unfold supported.
    apply String.eqb_neq in Hdarwin, Hlinux, Hwin32.
    rewrite Hdarwin, Hlinux, Hwin32. reflexivity. }
  split; [apply dependencies_unsupported; exact Hplatform|].
  intros schedule trace. subst trace.
  destruct (common_getInputs common) as [error|inputs] eqn:Hinputs.
  - unfold run. rewrite Hinputs.
    repeat split; try reflexivity. discriminate.
  - destruct (@run_unsupported common os_platform W schedule inputs
                Hinputs Hplatform)
      as (started & background & Htrace).
    destruct (@run_shape common os_platform W schedule inputs Hinputs)
      as (joined & tail & rest & Hrun & Hperm & Htail).
    pose proof (checkout_quiet common W inputs)
      as (Hbuild & Hinstall & Hfailed & _).
    assert (Hdeps : settle W (pullOdinBuildDependencies os_platform
                              (llvmVersion inputs))
                    = ([], Rejected message)).
    { rewrite settle_advance,
        (@dependencies_unsupported os_platform (llvmVersion inputs)
           Hplatform).
      reflexivity. }
    rewrite Hdeps in Hperm, Htail. cbn [fst snd] in Hperm, Htail.
    assert (Hreport : exists error, tail = [Did (core_setFailed error)]).
    { destruct (snd (settle W (checkout common inputs))) as [?|x].
      - eexists. exact Htail.
      - destruct Htail as [Htail|Htail]; eexists; exact Htail. }
    destruct Hreport as [error ->].
    unfold succeeded. rewrite Hrun.
    rewrite !(fun p a tail => @count_run p a _ tail _ _ _ Hperm).
    rewrite Hbuild, Hinstall, Hfailed.
    repeat split; try reflexivity.
    intros inputs' Hinputs'. rewrite <- Hrun, Htrace.
    right. right. left. reflexivity.
Qed.

(** C10, as the code has it.  Take a run in which [Promise.all]
    rejects: the checkout (the cache restoration with its pull or clone
    when the cache is checked, the clone otherwise) or the dependency
    installation fails.  Such a run never sets the [cache-hit] output to
    [false] and never saves the state as "false".  It writes no
    [cache-hit] output or state at all unless [restoreCache] itself
    confirmed a hit; then the output [true] and the state "true" are
    written once each, although the run is reported as failed. *)
Theorem failed_join_never_reports_miss (schedule : list bool)
  (inputs : Inputs) :
  common_getInputs common = inr inputs ->
  (exists error, snd (settle W (checkout common inputs)) = Rejected error)
  \/ (exists error, snd (settle W (pullOdinBuildDependencies os_platform
                     (llvmVersion inputs))) = Rejected error) ->
  let trace := run common os_platform W schedule in
  succeeded trace = false
  /\ count (sets_cache_hit false) trace = 0
  /\ count (saves_cache_hit "false") trace = 0
  /\ (snd (settle W (checkout common inputs)) <> Fulfilled true ->
      count is_cache_hit_report trace = 0)
  /\ (snd (settle W (checkout common inputs)) = Fulfilled true ->
      count (sets_cache_hit true) trace = 1
      /\ count (saves_cache_hit "true") trace = 1).
Proof.
  intros Hinputs Hrejected trace. subst trace.
  destruct (@run_shape common os_platform W schedule inputs Hinputs)
    as (joined & tail & background & Hrun & Hperm & Htail).
  pose proof (dependencies_quiet os_platform W (llvmVersion inputs))
    as (_ & _ & _ & _ & Hreport2 & Hfailed2 & Hsets2 & Hsaves2).
  pose proof (checkout_quiet common W inputs)
    as (_ & _ & Hfailed1 & Hsets1 & Hsaves1).
  pose proof (checkout_reports common W inputs) as Hreports.
  cbv zeta in *.
  assert (Htailed : exists error, tail = [Did (core_setFailed error)]).
  { destruct (snd (settle W (checkout common inputs))) as [success|x];
      destruct (snd (settle W (pullOdinBuildDependencies os_platform
                     (llvmVersion inputs)))) as [[]|y].
    - destruct Hrejected as [[error H]|[error H]]; discriminate H.
    - eauto.
    - eauto.
    - destruct Htail as [Htail|Htail]; eauto. }
  destruct Htailed as [error ->].
  unfold succeeded. rewrite Hrun.
  rewrite !(fun p a tail => @count_run p a _ tail _ _ _ Hperm).
  rewrite Hfailed1, Hfailed2, Hsets1, !Hsets2, Hsaves1, !Hsaves2,
    Hreport2.
  split; [reflexivity|]. split; [reflexivity|]. split; [reflexivity|].
  destruct (snd (settle W (checkout common inputs))) as [[|]|x].
  - destruct Hreports as [-> ->]. split; [congruence|].
    intros _. split; reflexivity.
  - destruct Hreports as (-> & _). split; [reflexivity|discriminate].
  - destruct Hreports as (-> & _). split; [reflexivity|discriminate].
Qed.

End Claims.

(** ** The theorems at sample runs *)

(** C1 at a cache hit on linux where LLVM is already installed. *)
Lemma confirmed_hit_skips_build_witness :
  let trace :=
    run (Sample.common true) "linux"
      (Sample.world (Some Sample.key) Sample.up_to_date 0 0 0 true)
      [true; false; true] in
  count (sets_cache_hit true) trace = 1
  /\ count (sets_cache_hit false) trace = 0
  /\ count (saves_cache_hit "true") trace = 1
  /\ count is_build trace = 0
  /\ (succeeded trace = true <->
      snd (settle (Sample.world (Some Sample.key) Sample.up_to_date 0 0 0 true)
             (pullOdinBuildDependencies "linux" "17")) = Fulfilled tt).
Proof.
  exact (@confirmed_hit_skips_build (Sample.common true) "linux"
           (Sample.world (Some Sample.key) Sample.up_to_date 0 0 0 true)
           [true; false; true] (Sample.inputs true)
           eq_refl eq_refl eq_refl eq_refl).
Defined.

(** C1 as the specification states it fails on a host that is not
    supported: the cache is checked, the requested key is restored and the
    pull reports the checkout as current, yet the run is reported as
    failed, since the dependency installation rejects. *)
Lemma confirmed_hit_on_unsupported_host_fails :
  common_getInputs (Sample.common true) = inr (Sample.inputs true)
  /\ common_cacheCheck (Sample.common true) (Sample.inputs true) = true
  /\ Sample.world (Some Sample.key) Sample.up_to_date 0 0 0 true
       (requested_key (Sample.common true) (Sample.inputs true))
     = Fulfilled (Some (common_composeCacheKey (Sample.common true)
                          (Sample.inputs true)))
  /\ snd (settle (Sample.world (Some Sample.key) Sample.up_to_date 0 0 0 true)
            (pullUpdates "/home/runner/odin" "v1.2.0")) = Fulfilled true
  /\ succeeded
       (run (Sample.common true) "freebsd"
          (Sample.world (Some Sample.key) Sample.up_to_date 0 0 0 true) [])
     = false.
Proof. repeat split. Qed.

(** C2 at a cache hit on darwin where [brew install] exits with 1 after
    the cache restoration has finished. *)
Lemma dependency_failure_fails_confirmed_hit_witness :
  let trace :=
    run (Sample.common true) "darwin"
      (Sample.world (Some Sample.key) Sample.up_to_date 0 1 0 true)
      [true; true; false] in
  succeeded trace = false
  /\ In (Did (core_setFailed
               "Installing Odin dependencies failed with exit code: 1"))
       trace
  /\ count is_setFailed trace = 1
  /\ count is_build trace = 0
  /\ count (sets_cache_hit true) trace = 1.
Proof.
  exact (@dependency_failure_fails_confirmed_hit (Sample.common true)
           "darwin"
           (Sample.world (Some Sample.key) Sample.up_to_date 0 1 0 true)
           [true; true; false] (Sample.inputs true)
           "Installing Odin dependencies failed with exit code: 1"
           eq_refl eq_refl eq_refl eq_refl).
Defined.

(** C2 as the specification states it fails there: the dependency
    installation rejects, [restoreCache] returns [true], and the run is
    not reported as successful. *)
Lemma failed_brew_install_is_not_discarded :
  common_cacheCheck (Sample.common true) (Sample.inputs true) = true
  /\ snd (settle (Sample.world (Some Sample.key) Sample.up_to_date 0 1 0 true)
            (pullOdinBuildDependencies "darwin" "17"))
     = Rejected "Installing Odin dependencies failed with exit code: 1"
  /\ snd (settle (Sample.world (Some Sample.key) Sample.up_to_date 0 1 0 true)
            (restoreCache (Sample.common true) (Sample.inputs true)
               "/home/runner/odin"))
     = Fulfilled true
  /\ succeeded
       (run (Sample.common true) "darwin"
          (Sample.world (Some Sample.key) Sample.up_to_date 0 1 0 true)
          [true; true; false])
     = false.
Proof. repeat split. Qed.

(** C3 at a stale hit on darwin, the build exiting with 0. *)
Lemma stale_hit_rebuilds_witness :
  let trace :=
    run (Sample.common true) "darwin"
      (Sample.world (Some Sample.key) Sample.fast_forward 0 0 0 true)
      [false; true] in
  count (sets_cache_hit false) trace = 1
  /\ count (sets_cache_hit true) trace = 0
  /\ count is_build trace = 1
  /\ count is_clone trace = 0
  /\ count is_pull trace = 1
  /\ In (Called (git_pull "/home/runner/odin" "v1.2.0")) trace
  /\ exists script : string,
      In (Called (build_command script (Sample.inputs true)
                    "/home/runner/odin")) trace.
Proof.
  exact (@stale_hit_rebuilds (Sample.common true) "darwin"
           (Sample.world (Some Sample.key) Sample.fast_forward 0 0 0 true)
           [false; true] (Sample.inputs true)
           eq_refl eq_refl eq_refl eq_refl eq_refl).
Defined.

(** C4 at a cache that holds another version, on win32. *)
Lemma miss_clones_then_builds_witness :
  let trace :=
    run (Sample.common true) "win32"
      (Sample.world (Some "https://example/compiler-v1.1.0-release")
         Sample.up_to_date 0 0 0 true)
      [true] in
  count is_clone trace = 1
  /\ count is_pull trace = 0
  /\ (snd (settle (Sample.world
                   (Some "https://example/compiler-v1.1.0-release")
                   Sample.up_to_date 0 0 0 true)
             (pullOdin (Sample.common true) "https://example/compiler"
                "v1.2.0")) = Fulfilled tt ->
      snd (settle (Sample.world
                   (Some "https://example/compiler-v1.1.0-release")
                   Sample.up_to_date 0 0 0 true)
             (pullOdinBuildDependencies "win32" "17")) = Fulfilled tt ->
      count is_build trace = 1
      /\ exists before_build from_build : list Event,
          trace = before_build ++ from_build
          /\ count is_clone before_build = 1
          /\ count is_build before_build = 0
          /\ count is_build from_build = 1).
Proof.
  refine (@miss_clones_then_builds (Sample.common true) "win32"
            (Sample.world (Some "https://example/compiler-v1.1.0-release")
               Sample.up_to_date 0 0 0 true)
            [true] (Sample.inputs true)
            (Some "https://example/compiler-v1.1.0-release")
            eq_refl eq_refl eq_refl _).
  discriminate.
Defined.

(** C4 as the specification states it fails when the clone fails: the
    cache store returns no key and [git clone] exits with 128; the clone
    was started, no pull was, and the build is never started. *)
Lemma miss_with_failed_clone_does_not_build :
  common_cacheCheck (Sample.common true) (Sample.inputs true) = true
  /\ Sample.world None Sample.up_to_date 128 0 0 true
       (requested_key (Sample.common true) (Sample.inputs true))
     = Fulfilled None
  /\ count is_clone
       (run (Sample.common true) "linux"
          (Sample.world None Sample.up_to_date 128 0 0 true) [false; true])
     = 1
  /\ count is_build
       (run (Sample.common true) "linux"
          (Sample.world None Sample.up_to_date 128 0 0 true) [false; true])
     = 0.
Proof. repeat split. Qed.

(** C5 on linux with the cache not checked, although the store holds the
    requested key. *)
Lemma disabled_cache_clones_and_builds_witness :
  let trace :=
    run (Sample.common false) "linux"
      (Sample.world (Some Sample.key) Sample.up_to_date 0 0 0 true)
      [false; true] in
  count is_clone trace = 1
  /\ count is_cache_query trace = 0
  /\ count is_pull trace = 0
  /\ (snd (settle (Sample.world (Some Sample.key) Sample.up_to_date 0 0 0 true)
             (pullOdin (Sample.common false) "https://example/compiler"
                "v1.2.0")) = Fulfilled tt ->
      snd (settle (Sample.world (Some Sample.key) Sample.up_to_date 0 0 0 true)
             (pullOdinBuildDependencies "linux" "17")) = Fulfilled tt ->
      count is_build trace = 1).
Proof.
  exact (@disabled_cache_clones_and_builds (Sample.common false) "linux"
           (Sample.world (Some Sample.key) Sample.up_to_date 0 0 0 true)
           [false; true] (Sample.inputs false) eq_refl eq_refl).
Defined.

(** C5 as the specification states it fails when [brew install] fails:
    with the cache not checked the clone is started, but the build is
    not. *)
Lemma disabled_cache_with_failed_install_does_not_build :
  common_cacheCheck (Sample.common false) (Sample.inputs false) = false
  /\ count is_clone
       (run (Sample.common false) "darwin"
          (Sample.world None Sample.up_to_date 0 1 0 true) [true; false])
     = 1
  /\ count is_build
       (run (Sample.common false) "darwin"
          (Sample.world None Sample.up_to_date 0 1 0 true) [true; false])
     = 0.
Proof. repeat split. Qed.

(** C6 at a pull that found nothing new. *)
Lemma pullUpdates_true_iff_output_says_so_witness :
  exists alreadyCurrent : bool,
    settle (Sample.world (Some Sample.key) Sample.up_to_date 0 0 0 true)
      (pullUpdates "/home/runner/odin" "v1.2.0")
    = ([Called (git_pull "/home/runner/odin" "v1.2.0")],
       Fulfilled alreadyCurrent)
    /\ (alreadyCurrent = true <->
        exists before_ after_ : string,
          Sample.up_to_date
          = (before_ ++ "Already up to date." ++ after_)%string).
Proof.
  exact (@pullUpdates_true_iff_output_says_so
           (Sample.world (Some Sample.key) Sample.up_to_date 0 0 0 true)
           "/home/runner/odin" "v1.2.0"
           {| exitCode := 0; stdout := Sample.up_to_date; stderr := "" |}
           eq_refl).
Defined.

(** C8 on freebsd. *)
Lemma unsupported_platform_fails_before_build_witness :
  advance (pullOdinBuildDependencies "freebsd" "17")
  = ([], Done (Rejected
                 "Operating system freebsd is not supported by setup-odin"))
  /\ forall schedule : list bool,
      let trace :=
        run (Sample.common false) "freebsd"
          (Sample.world None Sample.up_to_date 0 0 0 true) schedule in
      succeeded trace = false
      /\ count is_build trace = 0
      /\ count is_install trace = 0
      /\ (forall inputs : Inputs,
            common_getInputs (Sample.common false) = inr inputs ->
            In (Did (core_setFailed
                       "Operating system freebsd is not supported by setup-odin"))
              trace).
Proof.
  refine (@unsupported_platform_fails_before_build (Sample.common false)
            "freebsd" (Sample.world None Sample.up_to_date 0 0 0 true)
            "17" _ _ _); discriminate.
Defined.

(** C10 at a miss on linux where [git clone] exits with 128. *)
Lemma failed_join_never_reports_miss_witness :
  let trace :=
    run (Sample.common true) "linux"
      (Sample.world None Sample.up_to_date 128 0 0 true) [false; true] in
  succeeded trace = false
  /\ count (sets_cache_hit false) trace = 0
  /\ count (saves_cache_hit "false") trace = 0
  /\ (snd (settle (Sample.world None Sample.up_to_date 128 0 0 true)
             (checkout (Sample.common true) (Sample.inputs true)))
      <> Fulfilled true ->
      count is_cache_hit_report trace = 0)
  /\ (snd (settle (Sample.world None Sample.up_to_date 128 0 0 true)
             (checkout (Sample.common true) (Sample.inputs true)))
      = Fulfilled true ->
      count (sets_cache_hit true) trace = 1
      /\ count (saves_cache_hit "true") trace = 1).
Proof.
  refine (@failed_join_never_reports_miss (Sample.common true) "linux"
            (Sample.world None Sample.up_to_date 128 0 0 true) [false; true]
            (Sample.inputs true) eq_refl _).
  left.
  exists "Git clone failed with exit code: 128, are you sure that version exists?".
  reflexivity.
Defined.

(** C10 as the specification states it fails on a host that is not
    supported when the cache holds a current checkout: the dependency
    installation rejects at once and the failure is reported before the
    cache store has answered, yet [restoreCache] runs on and writes the
    [cache-hit] output and state. *)
Lemma failed_run_still_reports_hit :
  snd (settle (Sample.world (Some Sample.key) Sample.up_to_date 0 0 0 true)
         (pullOdinBuildDependencies "sunos" "17"))
  = Rejected "Operating system sunos is not supported by setup-odin"
  /\ run (Sample.common true) "sunos"
       (Sample.world (Some Sample.key) Sample.up_to_date 0 0 0 true) []
     = [Did (core_addPath "/home/runner/odin");
        Called (requested_key (Sample.common true) (Sample.inputs true));
        Did (core_setFailed
               "Operating system sunos is not supported by setup-odin");
        Did (core_info "Cache HIT, checking if it is still up-to-date");
        Called (git_pull "/home/runner/odin" "v1.2.0");
        Did (core_info "Cache is still up-to-date");
        Did (core_setOutput "cache-hit" true);
        Did (core_saveState "cache-hit" "true");
        Did (core_info "Successfully set up Odin compiler")]
  /\ count is_cache_hit_report
       (run (Sample.common true) "sunos"
          (Sample.world (Some Sample.key) Sample.up_to_date 0 0 0 true) [])
     = 2.
Proof. repeat split. Qed.

(** ** More on the async functions run alone *)

Section MoreAlone.

Variable common : Common.
Variable os_platform : string.
Variable W : World.

Lemma checkout_calls (inputs : Inputs) :
  let r := settle W (checkout common inputs) in
  count is_cache_query (fst r) <= 1
  /\ count is_clone (fst r) + count is_pull (fst r) <= 1
  /\ count is_cache_hit_report (fst r) = 2 * count (sets_cache_hit true) (fst r)
  /\ count (sets_cache_hit true) (fst r)
     = count (saves_cache_hit "true") (fst r)
  /\ count is_which (fst r) = 0
  /\ count is_success_info (fst r)
     = match snd r with
       | Fulfilled true => 1
       | _ => 0
       end
  /\ count (sets_cache_hit true) (fst r)
     = match snd r with
       | Fulfilled true => 1
       | _ => 0
       end.
Proof.
  unfold checkout. destruct (common_cacheCheck common inputs);
    unfold restoreCache, pullUpdates, pullOdin;
    answer W; repeat split; try reflexivity; cbn; lia.
Qed.

Lemma dependencies_calls (llvm : string) :
  let r := settle W (pullOdinBuildDependencies os_platform llvm) in
  count is_install (fst r)
  = (if String.eqb os_platform "darwin" then 1
     else if String.eqb os_platform "linux"
          then match W (io_which ("llvm-" ++ llvm)) with
               | Fulfilled _ => 0
               | Rejected _ => 1
               end
          else 0)
  /\ count is_which (fst r)
     = (if String.eqb os_platform "darwin" then 0
        else if String.eqb os_platform "linux" then 1 else 0)
  /\ count is_success_info (fst r) = 0.
Proof.
  unfold pullOdinBuildDependencies, check_install.
  answer W; repeat split; try reflexivity; cbn in *; congruence.
Qed.

Lemma build_counts (inputs : Inputs) (odinPath : string) :
  let r := settle W (build os_platform inputs odinPath) in
  count is_build (or_setFailed r) <= 1
  /\ count is_which (or_setFailed r) = 0
  /\ count is_cache_hit_report (or_setFailed r) = 2
  /\ count is_setFailed (or_setFailed r)
     = match snd r with
       | Fulfilled _ => 0
       | Rejected _ => 1
       end
  /\ count is_success_info (or_setFailed r)
     = match snd r with
       | Fulfilled _ => 1
       | Rejected _ => 0
       end.
Proof.
  unfold build, build_command.
  answer W; repeat split; try reflexivity; cbn; lia.
Qed.

Lemma build_reports_rejection (inputs : Inputs) (odinPath : string)
  (message : string) :
  In (Did (core_setFailed message))
     (or_setFailed (settle W (build os_platform inputs odinPath))) ->
  snd (settle W (build os_platform inputs odinPath)) = Rejected message.
Proof.
  unfold build, build_command.
  answer W; intros Hin;
    repeat (destruct Hin as [Hin|Hin]; [try discriminate Hin|]);
    try contradiction; injection Hin as <-; reflexivity.
Qed.

Lemma build_starts_script (inputs : Inputs) (odinPath : string)
  (event : Event) :
  In event (or_setFailed (settle W (build os_platform inputs odinPath))) ->
  is_build event = true ->
  started_command event
  = Some (build_script os_platform, [buildType inputs], Some odinPath).
Proof.
  unfold build, build_command, build_script.
  destruct (String.eqb_spec os_platform "darwin") as [->|Hdarwin];
    [|destruct (String.eqb_spec os_platform "linux") as [->|Hlinux];
      [|destruct (String.eqb_spec os_platform "win32") as [->|Hwin32]]];
    answer W; intros Hin Hbuild;
    repeat (destruct Hin as [<-|Hin]; [try discriminate Hbuild|]);
    try contradiction; reflexivity.
Qed.

Lemma restoreCache_store_rejects (inputs : Inputs) (odinPath : string)
  (error : Error) :
  W (requested_key common inputs) = Rejected error ->
  settle W (restoreCache common inputs odinPath)
  = ([Called (requested_key common inputs)], Rejected error).
Proof.
  unfold restoreCache, requested_key. intros Hstore.
  cbn. rewrite Hstore. reflexivity.
Qed.

Lemma restoreCache_pull_rejects (inputs : Inputs) (odinPath : string)
  (error : Error) :
  W (requested_key common inputs)
  = Fulfilled (Some (common_composeCacheKey common inputs)) ->
  W (git_pull odinPath (odinVersion inputs)) = Rejected error ->
  settle W (restoreCache common inputs odinPath)
  = ([Called (requested_key common inputs);
      Did (core_info "Cache HIT, checking if it is still up-to-date");
      Called (git_pull odinPath (odinVersion inputs))],
     Rejected error).
Proof.
  unfold restoreCache, pullUpdates, requested_key. intros Hkey Hpull.
  cbn. rewrite Hkey. cbn. rewrite String.eqb_refl. cbn.
  rewrite Hpull. reflexivity.
Qed.

Lemma paths_added_alone (inputs : Inputs) :
  count is_addPath (fst (settle W (checkout common inputs))) = 0
  /\ count is_addPath
       (fst (settle W (pullOdinBuildDependencies os_platform
                         (llvmVersion inputs))))
     = (if String.eqb os_platform "darwin" then 1 else 0)
  /\ count is_addPath
       (or_setFailed (settle W (build os_platform inputs
                                  (common_odinPath common)))) = 0.
Proof.
  unfold checkout, restoreCache, pullUpdates, pullOdin,
    pullOdinBuildDependencies, check_install, build, build_command.
  repeat split; answer W; reflexivity.
Qed.

(** The three ways a run that read its inputs goes on after
    [Promise.all]. *)
Lemma run_parts (schedule : list bool) (inputs : Inputs) :
  common_getInputs common = inr inputs ->
  let r1 := settle W (checkout common inputs) in
  let r2 := settle W (pullOdinBuildDependencies os_platform
                        (llvmVersion inputs)) in
  exists joined tail background : list Event,
    run common os_platform W schedule
    = Did (core_addPath (common_odinPath common))
      :: joined ++ tail ++ background
    /\ Permutation (joined ++ background) (fst r1 ++ fst r2)
    /\ ((snd r1 = Fulfilled true /\ snd r2 = Fulfilled tt
         /\ tail = [] /\ background = [])
        \/ (snd r1 = Fulfilled false /\ snd r2 = Fulfilled tt
            /\ tail = or_setFailed
                        (settle W (build os_platform inputs
                                     (common_odinPath common)))
            /\ background = [])
        \/ (exists message : string,
               tail = [Did (core_setFailed message)]
               /\ (snd r1 = Rejected message
                   \/ snd r2 = Rejected message))).
Proof.
  intros Hinputs.
  destruct (@run_shape common os_platform W schedule inputs Hinputs)
    as (joined & tail & background & Hrun & Hperm & Htail).
  exists joined, tail, background. cbv zeta in *.
  split; [exact Hrun|]. split; [exact Hperm|].
  destruct (snd (settle W (checkout common inputs))) as [[|]|x];
    destruct (snd (settle W (pullOdinBuildDependencies os_platform
                               (llvmVersion inputs)))) as [[]|y].
  - left. tauto.
  - right. right. eauto.
  - right. left. tauto.
  - right. right. eauto.
  - right. right. eauto.
  - right. right. destruct Htail as [Htail|Htail]; eauto.
Qed.

End MoreAlone.

(** ** Further properties of the program *)

Section Further.

Variable common : Common.
Variable os_platform : string.
Variable W : World.

(** X1.  [pullOdin] starts [git clone] and nothing else.  Its promise
    fulfils exactly when the clone exits with 0, and a clone that could
    not be run at all rejects it with the same error. *)
Theorem pullOdin_fulfils_iff_clone_exits_zero (repository version : string) :
  fst (settle W (pullOdin common repository version))
  = [Called (git_clone common repository version)]
  /\ (snd (settle W (pullOdin common repository version)) = Fulfilled tt <->
      W (git_clone common repository version) = Fulfilled 0%Z)
  /\ (forall error : Error,
        W (git_clone common repository version) = Rejected error ->
        snd (settle W (pullOdin common repository version))
        = Rejected error).
Proof.
  unfold pullOdin. cbn.
  destruct (W (git_clone common repository version)) as [code|x]; cbn.
  - destruct (Z.eqb_spec code 0) as [->|Hcode]; cbn.
    + repeat split; congruence.
    + repeat split; congruence.
  - repeat split; congruence.
Qed.

(** X2.  No run calls [core.setFailed] more than once, whatever the world
    answers and in whatever order the joined promises make progress. *)
Theorem failure_is_reported_at_most_once (schedule : list bool) :
  count is_setFailed (run common os_platform W schedule) <= 1.
Proof.
  destruct (common_getInputs common) as [error|inputs] eqn:Hinputs.
  { unfold run. rewrite Hinputs. cbn. lia. }
  destruct (@run_parts common os_platform W schedule inputs Hinputs)
    as (joined & tail & background & Hrun & Hperm & Hcases).
  pose proof (checkout_quiet common W inputs) as (_ & _ & Hfailed1 & _).
  pose proof (dependencies_quiet os_platform W (llvmVersion inputs))
    as (_ & _ & _ & _ & _ & Hfailed2 & _).
  pose proof (build_counts os_platform W inputs (common_odinPath common))
    as (_ & _ & _ & Hfailed3 & _).
  cbv zeta in *.
  rewrite Hrun, !(fun p a tail => @count_run p a _ tail _ _ _ Hperm).
  rewrite Hfailed1, Hfailed2.
  destruct Hcases as [(_ & _ & -> & _)|[(_ & _ & -> & _)|(message & -> & _)]].
  - cbn. lia.
  - rewrite Hfailed3.
    destruct (snd (settle W (build os_platform inputs
                               (common_odinPath common)))); cbn; lia.
  - cbn. lia.
Qed.

(** X3.  A run that read its inputs succeeds in exactly two ways: the
    cache restoration confirmed a hit and the dependency installation
    succeeded, or the checkout asked for a build and the checkout, the
    dependency installation and the build all succeeded. *)
Theorem run_succeeds_iff (schedule : list bool) (inputs : Inputs) :
  common_getInputs common = inr inputs ->
  let deps := pullOdinBuildDependencies os_platform (llvmVersion inputs) in
  succeeded (run common os_platform W schedule) = true <->
  snd (settle W deps) = Fulfilled tt
  /\ (snd (settle W (checkout common inputs)) = Fulfilled true
      \/ (snd (settle W (checkout common inputs)) = Fulfilled false
          /\ snd (settle W (build os_platform inputs
                             (common_odinPath common))) = Fulfilled tt)).
Proof.
  intros Hinputs deps. subst deps.
  destruct (@run_parts common os_platform W schedule inputs Hinputs)
    as (joined & tail & background & Hrun & Hperm & Hcases).
  pose proof (checkout_quiet common W inputs) as (_ & _ & Hfailed1 & _).
  pose proof (dependencies_quiet os_platform W (llvmVersion inputs))
    as (_ & _ & _ & _ & _ & Hfailed2 & _).
  pose proof (build_counts os_platform W inputs (common_odinPath common))
    as (_ & _ & _ & Hfailed3 & _).
  cbv zeta in *. unfold succeeded.
  rewrite Hrun, !(fun p a tail => @count_run p a _ tail _ _ _ Hperm).
  rewrite Hfailed1, Hfailed2.
  destruct Hcases
    as [(H1 & H2 & -> & _)|[(H1 & H2 & -> & _)|(message & -> & Hrejected)]].
  - rewrite H1, H2. cbn. split; auto.
  - rewrite H1, H2, Hfailed3.
    destruct (snd (settle W (build os_platform inputs
                               (common_odinPath common)))) as [[]|x]; cbn.
    + split; auto.
    + split; [discriminate|].
      intros (_ & [H|(_ & H)]); discriminate H.
  - cbn. split; [discriminate|].
    intros (Hdeps & Hcheckout).
    destruct Hrejected as [H|H]; rewrite H in *;
      [destruct Hcheckout as [Hc|(Hc & _)]; discriminate Hc
      |discriminate Hdeps].
Qed.

(** X4.  Every build a run starts is the script of the host system,
    [./build.bat] on win32 and [./build_odin.sh] on darwin and linux, with
    the build type as its only argument and the checkout as its working
    directory. *)
Theorem build_runs_the_script_of_the_host (schedule : list bool)
  (inputs : Inputs) (event : Event) :
  common_getInputs common = inr inputs ->
  In event (run common os_platform W schedule) ->
  is_build event = true ->
  started_command event
  = Some (build_script os_platform, [buildType inputs],
          Some (common_odinPath common)).
Proof.
  intros Hinputs Hin Hbuild.
  destruct (@run_parts common os_platform W schedule inputs Hinputs)
    as (joined & tail & background & Hrun & Hperm & Hcases).
  pose proof (checkout_quiet common W inputs) as (Hquiet1 & _).
  pose proof (dependencies_quiet os_platform W (llvmVersion inputs))
    as (Hquiet2 & _).
  cbv zeta in *.
  assert (Hjoined : forall e,
             In e (joined ++ background) -> is_build e = false).
  { intros e He.
    apply (Permutation_in _ Hperm), in_app_or in He.
    destruct He as [He|He]; eauto using count_zero_In. }
  assert (Htailed : In event tail).
  { rewrite Hrun in Hin. destruct Hin as [<-|Hin]; [discriminate Hbuild|].
    apply in_app_or in Hin. destruct Hin as [Hin|Hin].
    - rewrite (Hjoined _ (in_or_app _ _ _ (or_introl Hin))) in Hbuild.
      discriminate.
    - apply in_app_or in Hin. destruct Hin as [Hin|Hin]; [exact Hin|].
      rewrite (Hjoined _ (in_or_app _ _ _ (or_intror Hin))) in Hbuild.
      discriminate. }
  destruct Hcases
    as [(_ & _ & -> & _)|[(_ & _ & -> & _)|(message & -> & _)]].
  - destruct Htailed.
  - apply (@build_starts_script os_platform W inputs
             (common_odinPath common) event Htailed Hbuild).
  - destruct Htailed as [<-|[]]. discriminate Hbuild.
Qed.

(** X5.  No run starts a command twice: the cache store is queried at most
    once, and at most one clone, one pull, one package manager and one
    build are started.  A run never both clones and pulls. *)
Theorem no_command_is_started_twice (schedule : list bool) :
  let trace := run common os_platform W schedule in
  count is_cache_query trace <= 1
  /\ count is_clone trace + count is_pull trace <= 1
  /\ count is_install trace <= 1
  /\ count is_build trace <= 1.
Proof.
  cbv zeta.
  destruct (common_getInputs common) as [error|inputs] eqn:Hinputs.
  { unfold run. rewrite Hinputs. cbn. lia. }
  destruct (@run_parts common os_platform W schedule inputs Hinputs)
    as (joined & tail & background & Hrun & Hperm & Hcases).
  pose proof (checkout_quiet common W inputs) as (Hbuild1 & Hinstall1 & _).
  pose proof (checkout_calls common W inputs) as (Hquery1 & Hsync1 & _).
  pose proof (dependencies_quiet os_platform W (llvmVersion inputs))
    as (Hbuild2 & Hclone2 & Hpull2 & Hquery2 & _).
  pose proof (dependencies_calls os_platform W (llvmVersion inputs))
    as (Hinstall2 & _).
  pose proof (build_counts os_platform W inputs (common_odinPath common))
    as (Hbuild3 & _).
  pose proof (build_quiet os_platform W inputs (common_odinPath common))
    as (Hclone3 & Hpull3 & Hquery3 & Hinstall3 & _).
  cbv zeta in *.
  assert (Hinstall : count is_install
                       (fst (settle W (pullOdinBuildDependencies os_platform
                                         (llvmVersion inputs)))) <= 1).
  { rewrite Hinstall2.
    destruct (String.eqb os_platform "darwin"); [lia|].
    destruct (String.eqb os_platform "linux"); [|lia].
    destruct (W (io_which ("llvm-" ++ llvmVersion inputs))); lia. }
  rewrite Hrun, !(fun p a tail => @count_run p a _ tail _ _ _ Hperm).
  rewrite Hbuild1, Hinstall1, Hbuild2, Hclone2, Hpull2, Hquery2.
  destruct Hcases
    as [(_ & _ & -> & _)|[(_ & _ & -> & _)|(message & -> & _)]].
  - cbn. lia.
  - rewrite Hclone3, Hpull3, Hquery3, Hinstall3.
    unfold count in *. cbn in *. lia.
  - cbn. lia.
Qed.

(** X6.  The [cache-hit] output and the [cache-hit] state are always
    written together and with the same answer: the output is set to [true]
    as often as the state is saved as "true", to [false] as often as the
    state is saved as "false", no other value is ever written, and a run
    never reports both a hit and a miss. *)
Theorem cache_hit_output_and_state_agree (schedule : list bool) :
  let trace := run common os_platform W schedule in
  count (sets_cache_hit true) trace = count (saves_cache_hit "true") trace
  /\ count (sets_cache_hit false) trace
     = count (saves_cache_hit "false") trace
  /\ count (sets_cache_hit true) trace + count (sets_cache_hit false) trace
     <= 1
  /\ count is_cache_hit_report trace
     = 2 * (count (sets_cache_hit true) trace
            + count (sets_cache_hit false) trace).
Proof.
  cbv zeta.
  destruct (common_getInputs common) as [error|inputs] eqn:Hinputs.
  { unfold run. rewrite Hinputs. cbn. lia. }
  destruct (@run_parts common os_platform W schedule inputs Hinputs)
    as (joined & tail & background & Hrun & Hperm & Hcases).
  pose proof (checkout_quiet common W inputs)
    as (_ & _ & _ & Hmiss1 & Hmissed1).
  pose proof (checkout_calls common W inputs)
    as (_ & _ & Hreport1 & Hsaved1 & _ & _ & Hhit1).
  pose proof (dependencies_quiet os_platform W (llvmVersion inputs))
    as (_ & _ & _ & _ & Hreport2 & _ & Hsets2 & Hsaves2).
  pose proof (build_quiet os_platform W inputs (common_odinPath common))
    as (_ & _ & _ & _ & Hmiss3 & Hmissed3 & Hhit3 & Hsaved3).
  pose proof (build_counts os_platform W inputs (common_odinPath common))
    as (_ & _ & Hreport3 & _).
  cbv zeta in *.
  rewrite Hrun, !(fun p a tail => @count_run p a _ tail _ _ _ Hperm).
  rewrite Hmiss1, Hmissed1, Hreport1, <- Hsaved1, Hreport2, !Hsets2,
    !Hsaves2.
  destruct Hcases
    as [(H1 & _ & -> & _)|[(H1 & _ & -> & _)|(message & -> & _)]].
  - rewrite Hhit1, H1. cbn. lia.
  - rewrite Hmiss3, Hmissed3, Hhit3, Hsaved3, Hreport3, Hhit1, H1.
    cbn. lia.
  - rewrite Hhit1.
    destruct (snd (settle W (checkout common inputs))) as [[|]|x];
      cbn; lia.
Qed.

(** X7.  A run starts the build exactly as often as it sets the
    [cache-hit] output to [false]: whenever line 34 is reached the
    [switch] of line 38 finds its case, and the build is started nowhere
    else. *)
Theorem build_started_iff_miss_reported (schedule : list bool) :
  count is_build (run common os_platform W schedule)
  = count (sets_cache_hit false) (run common os_platform W schedule).
Proof.
  destruct (common_getInputs common) as [error|inputs] eqn:Hinputs.
  { unfold run. rewrite Hinputs. reflexivity. }
  destruct (@run_parts common os_platform W schedule inputs Hinputs)
    as (joined & tail & background & Hrun & Hperm & Hcases).
  pose proof (checkout_quiet common W inputs)
    as (Hbuild1 & _ & _ & Hmiss1 & _).
  pose proof (dependencies_quiet os_platform W (llvmVersion inputs))
    as (Hbuild2 & _ & _ & _ & _ & _ & Hsets2 & _).
  pose proof (build_quiet os_platform W inputs (common_odinPath common))
    as (_ & _ & _ & _ & Hmiss3 & _).
  cbv zeta in *.
  rewrite Hrun, !(fun p a tail => @count_run p a _ tail _ _ _ Hperm).
  rewrite Hbuild1, Hbuild2, Hmiss1, Hsets2.
  destruct Hcases
    as [(_ & _ & -> & _)|[(_ & H2 & -> & _)|(message & -> & _)]].
  - reflexivity.
  - assert (Hsupported : supported os_platform = true).
    { apply (@dependencies_supported os_platform W (llvmVersion inputs)
               (fst (settle W (pullOdinBuildDependencies os_platform
                                 (llvmVersion inputs))))).
      rewrite <- H2. apply surjective_pairing. }
    rewrite Hmiss3.
    rewrite (@build_once os_platform W inputs (common_odinPath common)
               Hsupported).
    reflexivity.
  - reflexivity.
Qed.

(** X8.  The build never overtakes the provisioning: every run splits
    into a first part that starts no build and a second part that queries
    no cache, clones nothing, pulls nothing, asks for no tool and starts no
    package manager. *)
Theorem build_follows_provisioning (schedule : list bool) :
  exists before_build from_build : list Event,
    run common os_platform W schedule = before_build ++ from_build
    /\ count is_build before_build = 0
    /\ count is_cache_query from_build = 0
    /\ count is_clone from_build = 0
    /\ count is_pull from_build = 0
    /\ count is_which from_build = 0
    /\ count is_install from_build = 0.
Proof.
  destruct (common_getInputs common) as [error|inputs] eqn:Hinputs.
  { exists (run common os_platform W schedule), [].
    rewrite app_nil_r. unfold run. rewrite Hinputs.
    repeat split; reflexivity. }
  destruct (@run_parts common os_platform W schedule inputs Hinputs)
    as (joined & tail & background & Hrun & Hperm & Hcases).
  pose proof (checkout_quiet common W inputs) as (Hbuild1 & _).
  pose proof (dependencies_quiet os_platform W (llvmVersion inputs))
    as (Hbuild2 & _).
  pose proof (build_quiet os_platform W inputs (common_odinPath common))
    as (Hclone3 & Hpull3 & Hquery3 & Hinstall3 & _).
  pose proof (build_counts os_platform W inputs (common_odinPath common))
    as (_ & Hwhich3 & _).
  cbv zeta in *.
  destruct Hcases
    as [(_ & _ & -> & _)|[(_ & _ & -> & ->)|(message & -> & _)]].
  - exists (run common os_platform W schedule), [].
    rewrite app_nil_r. split; [reflexivity|].
    rewrite Hrun, (fun p a tail => @count_run p a _ tail _ _ _ Hperm).
    rewrite Hbuild1, Hbuild2. repeat split; reflexivity.
  - exists (Did (core_addPath (common_odinPath common)) :: joined),
      (or_setFailed (settle W (build os_platform inputs
                                 (common_odinPath common)))).
    rewrite Hrun, !app_nil_r in *.
    apply (count_Permutation is_build) in Hperm.
    rewrite count_app, Hbuild1, Hbuild2 in Hperm.
    rewrite count_cons, Hperm. repeat split; assumption.
  - exists (run common os_platform W schedule), [].
    rewrite app_nil_r. split; [reflexivity|].
    rewrite Hrun, (fun p a tail => @count_run p a _ tail _ _ _ Hperm).
    rewrite Hbuild1, Hbuild2. repeat split; reflexivity.
Qed.

(** X9.  Whether a package manager is started depends on the host alone,
    not on the cache: a run that read its inputs starts [brew install] once
    on darwin, starts [apt-fast install] once on linux when [io.which]
    does not find LLVM and not at all when it does, and starts none on any
    other host.  This holds on a confirmed cache hit too. *)
Theorem package_manager_depends_on_host_only (schedule : list bool)
  (inputs : Inputs) :
  common_getInputs common = inr inputs ->
  count is_install (run common os_platform W schedule)
  = if String.eqb os_platform "darwin" then 1
    else if String.eqb os_platform "linux"
         then match W (io_which ("llvm-" ++ llvmVersion inputs)) with
              | Fulfilled _ => 0
              | Rejected _ => 1
              end
         else 0.
Proof.
  intros Hinputs.
  destruct (@run_parts common os_platform W schedule inputs Hinputs)
    as (joined & tail & background & Hrun & Hperm & Hcases).
  pose proof (checkout_quiet common W inputs) as (_ & Hinstall1 & _).
  pose proof (dependencies_calls os_platform W (llvmVersion inputs))
    as (Hinstall2 & _).
  pose proof (build_quiet os_platform W inputs (common_odinPath common))
    as (_ & _ & _ & Hinstall3 & _).
  cbv zeta in *.
  rewrite Hrun, (fun p a tail => @count_run p a _ tail _ _ _ Hperm).
  rewrite Hinstall1, Hinstall2.
  destruct Hcases
    as [(_ & _ & -> & _)|[(_ & _ & -> & _)|(message & -> & _)]].
  - cbn. lia.
  - rewrite Hinstall3. cbn. lia.
  - cbn. lia.
Qed.

(** X10.  A cache store that rejects the query is not taken for a miss:
    with the cache checked, the run is reported as failed and neither
    clones, pulls nor builds, and it writes no [cache-hit] output or
    state. *)
Theorem cache_store_failure_is_fatal (schedule : list bool)
  (inputs : Inputs) (error : Error) :
  common_getInputs common = inr inputs ->
  common_cacheCheck common inputs = true ->
  W (requested_key common inputs) = Rejected error ->
  let trace := run common os_platform W schedule in
  succeeded trace = false
  /\ count is_clone trace = 0
  /\ count is_pull trace = 0
  /\ count is_build trace = 0
  /\ count is_cache_hit_report trace = 0.
Proof.
  intros Hinputs Hcache Hstore trace. subst trace.
  destruct (@run_parts common os_platform W schedule inputs Hinputs)
    as (joined & tail & background & Hrun & Hperm & Hcases).
  pose proof (@restoreCache_store_rejects common W inputs
                (common_odinPath common) error Hstore) as Hcheckout.
  pose proof (dependencies_quiet os_platform W (llvmVersion inputs))
    as (Hbuild2 & Hclone2 & Hpull2 & _ & Hreport2 & Hfailed2 & _).
  cbv zeta in *. unfold checkout in Hperm, Hcases.
  rewrite Hcache, Hcheckout in Hperm, Hcases. cbn [fst snd] in Hperm, Hcases.
  unfold succeeded.
  rewrite Hrun, !(fun p a tail => @count_run p a _ tail _ _ _ Hperm).
  rewrite Hbuild2, Hclone2, Hpull2, Hreport2, Hfailed2.
  destruct Hcases
    as [(H & _)|[(H & _)|(message & -> & _)]]; try discriminate H.
  repeat split; reflexivity.
Qed.

(** X11.  A pull that cannot be run is fatal as well: with the cache
    checked and the requested key restored, a rejected [git pull] fails
    the run; there is no fall back to a fresh clone, no build, and no
    [cache-hit] output or state. *)
Theorem failed_pull_is_fatal (schedule : list bool) (inputs : Inputs)
  (error : Error) :
  common_getInputs common = inr inputs ->
  common_cacheCheck common inputs = true ->
  W (requested_key common inputs)
  = Fulfilled (Some (common_composeCacheKey common inputs)) ->
  W (git_pull (common_odinPath common) (odinVersion inputs))
  = Rejected error ->
  let trace := run common os_platform W schedule in
  succeeded trace = false
  /\ count is_pull trace = 1
  /\ count is_clone trace = 0
  /\ count is_build trace = 0
  /\ count is_cache_hit_report trace = 0.
Proof.
  intros Hinputs Hcache Hkey Hpull trace. subst trace.
  destruct (@run_parts common os_platform W schedule inputs Hinputs)
    as (joined & tail & background & Hrun & Hperm & Hcases).
  pose proof (@restoreCache_pull_rejects common W inputs
                (common_odinPath common) error Hkey Hpull) as Hcheckout.
  pose proof (dependencies_quiet os_platform W (llvmVersion inputs))
    as (Hbuild2 & Hclone2 & Hpull2 & _ & Hreport2 & Hfailed2 & _).
  cbv zeta in *. unfold checkout in Hperm, Hcases.
  rewrite Hcache, Hcheckout in Hperm, Hcases. cbn [fst snd] in Hperm, Hcases.
  unfold succeeded.
  rewrite Hrun, !(fun p a tail => @count_run p a _ tail _ _ _ Hperm).
  rewrite Hbuild2, Hclone2, Hpull2, Hreport2, Hfailed2.
  destruct Hcases
    as [(H & _)|[(H & _)|(message & -> & _)]]; try discriminate H.
  repeat split; reflexivity.
Qed.

(** X12.  The message "Successfully set up Odin compiler" is logged at
    most once in a run, and exactly once in every run that succeeds,
    whether it ends at the confirmed hit (line 81) or after the build
    (line 59). *)
Theorem success_is_logged_once (schedule : list bool) :
  let trace := run common os_platform W schedule in
  count is_success_info trace <= 1
  /\ (succeeded trace = true -> count is_success_info trace = 1).
Proof.
  cbv zeta.
  destruct (common_getInputs common) as [error|inputs] eqn:Hinputs.
  { unfold run. rewrite Hinputs. cbn. split; [lia|discriminate]. }
  destruct (@run_parts common os_platform W schedule inputs Hinputs)
    as (joined & tail & background & Hrun & Hperm & Hcases).
  pose proof (checkout_quiet common W inputs) as (_ & _ & Hfailed1 & _).
  pose proof (checkout_calls common W inputs)
    as (_ & _ & _ & _ & _ & Hinfo1 & _).
  pose proof (dependencies_quiet os_platform W (llvmVersion inputs))
    as (_ & _ & _ & _ & _ & Hfailed2 & _).
  pose proof (dependencies_calls os_platform W (llvmVersion inputs))
    as (_ & _ & Hinfo2).
  pose proof (build_counts os_platform W inputs (common_odinPath common))
    as (_ & _ & _ & Hfailed3 & Hinfo3).
  cbv zeta in *. unfold succeeded.
  rewrite Hrun, !(fun p a tail => @count_run p a _ tail _ _ _ Hperm).
  rewrite Hfailed1, Hfailed2, Hinfo1, Hinfo2.
  destruct Hcases
    as [(H1 & _ & -> & _)|[(H1 & _ & -> & _)|(message & -> & _)]].
  - rewrite H1. cbn. split; [lia|reflexivity].
  - rewrite H1, Hfailed3, Hinfo3.
    destruct (snd (settle W (build os_platform inputs
                               (common_odinPath common))));
      cbn; split; try lia; try reflexivity; discriminate.
  - destruct (snd (settle W (checkout common inputs))) as [[|]|x];
      cbn; split; try lia; discriminate.
Qed.

(** X13.  No failure is made up: whenever a run that read its inputs
    reports a failure, the message is the error with which the checkout,
    the dependency installation or the build rejected. *)
Theorem reported_failure_is_a_rejection (schedule : list bool)
  (inputs : Inputs) (message : string) :
  common_getInputs common = inr inputs ->
  In (Did (core_setFailed message)) (run common os_platform W schedule) ->
  snd (settle W (checkout common inputs)) = Rejected message
  \/ snd (settle W (pullOdinBuildDependencies os_platform
                      (llvmVersion inputs))) = Rejected message
  \/ snd (settle W (build os_platform inputs (common_odinPath common)))
     = Rejected message.
Proof.
  intros Hinputs Hin.
  destruct (@run_parts common os_platform W schedule inputs Hinputs)
    as (joined & tail & background & Hrun & Hperm & Hcases).
  pose proof (checkout_quiet common W inputs) as (_ & _ & Hquiet1 & _).
  pose proof (dependencies_quiet os_platform W (llvmVersion inputs))
    as (_ & _ & _ & _ & _ & Hquiet2 & _).
  cbv zeta in *.
  assert (Hjoined : forall e,
             In e (joined ++ background) -> is_setFailed e = false).
  { intros e He.
    apply (Permutation_in _ Hperm), in_app_or in He.
    destruct He as [He|He]; eauto using count_zero_In. }
  assert (Htailed : In (Did (core_setFailed message)) tail).
  { rewrite Hrun in Hin. destruct Hin as [H|Hin]; [discriminate H|].
    apply in_app_or in Hin. destruct Hin as [Hin|Hin].
    - pose proof (Hjoined _ (in_or_app _ _ _ (or_introl Hin))) as H.
      discriminate H.
    - apply in_app_or in Hin. destruct Hin as [Hin|Hin]; [exact Hin|].
      pose proof (Hjoined _ (in_or_app _ _ _ (or_intror Hin))) as H.
      discriminate H. }
  destruct Hcases
    as [(_ & _ & -> & _)|[(_ & _ & -> & _)|(reported & -> & Hrejected)]].
  - destruct Htailed.
  - right. right.
    apply (@build_reports_rejection os_platform W inputs
             (common_odinPath common) message Htailed).
  - destruct Htailed as [H|[]]. injection H as ->.
    destruct Hrejected as [H|H]; auto.
Qed.

(** X14.  Besides the checkout directory, which every run that read its
    inputs adds first, only the LLVM prefix of Homebrew is added to the
    execution path, and only on darwin. *)
Theorem paths_added_to_the_execution_path (schedule : list bool)
  (inputs : Inputs) :
  common_getInputs common = inr inputs ->
  let trace := run common os_platform W schedule in
  hd_error trace = Some (Did (core_addPath (common_odinPath common)))
  /\ count is_addPath trace
     = (if String.eqb os_platform "darwin" then 2 else 1)
  /\ (os_platform = "darwin" ->
      In (Did (core_addPath ("/usr/local/opt/llvm@" ++ llvmVersion inputs
                             ++ "/bin")%string)) trace).
Proof.
  intros Hinputs trace. subst trace.
  destruct (@run_parts common os_platform W schedule inputs Hinputs)
    as (joined & tail & background & Hrun & Hperm & Hcases).
  pose proof (paths_added_alone common os_platform W inputs)
    as (Hpath1 & Hpath2 & Hpath3).
  cbv zeta in *. rewrite Hrun. split; [reflexivity|]. split.
  - rewrite (fun p a tail => @count_run p a _ tail _ _ _ Hperm).
    rewrite Hpath1, Hpath2.
    destruct Hcases
      as [(_ & _ & -> & _)|[(_ & _ & -> & _)|(message & -> & _)]];
      rewrite ?Hpath3; destruct (String.eqb os_platform "darwin");
      reflexivity.
  - intros ->. right.
    assert (Hin : In (Did (core_addPath
                             ("/usr/local/opt/llvm@" ++ llvmVersion inputs
                              ++ "/bin")%string))
                    (joined ++ background)).
    { apply (Permutation_in _ (Permutation_sym Hperm)).
      apply in_or_app. right.
      unfold pullOdinBuildDependencies, check_install.
      answer W; left; reflexivity. }
    apply in_app_or in Hin. apply in_or_app.
    destruct Hin as [Hin|Hin]; [left; exact Hin|].
    right. apply in_or_app. right. exact Hin.
Qed.

(** X16.  [pullOdinBuildDependencies] fulfils in exactly these cases: on
    darwin when [brew install] exits with 0; on linux when [io.which]
    finds LLVM, or does not and [apt-fast install] exits with 0; and on
    win32, always. *)
Theorem dependencies_fulfil_iff (llvm : string) :
  snd (settle W (pullOdinBuildDependencies os_platform llvm)) = Fulfilled tt
  <->
  (os_platform = "darwin" /\ W (brew_install llvm) = Fulfilled 0%Z)
  \/ (os_platform = "linux"
      /\ ((exists path, W (io_which ("llvm-" ++ llvm)) = Fulfilled path)
          \/ ((exists error, W (io_which ("llvm-" ++ llvm)) = Rejected error)
              /\ W (apt_install llvm) = Fulfilled 0%Z)))
  \/ os_platform = "win32".
Proof.
  unfold pullOdinBuildDependencies, check_install.
  destruct (String.eqb_spec os_platform "darwin") as [->|Hdarwin];
    [|destruct (String.eqb_spec os_platform "linux") as [->|Hlinux];
      [|destruct (String.eqb_spec os_platform "win32") as [->|Hwin32]]];
    cbn.
  - destruct (W (brew_install llvm)) as [code|x]; cbn.
    + destruct (Z.eqb_spec code 0) as [->|Hcode]; cbn.
      * split; auto.
      * split; [discriminate|].
        intros [(_ & H)|[(H & _)|H]]; try discriminate H. congruence.
    + split; [discriminate|].
      intros [(_ & H)|[(H & _)|H]]; discriminate H.
  - match goal with
    | |- context [W (io_which ?tool)] =>
        destruct (W (io_which tool)) as [path|x]; cbn
    end.
    + split; [|reflexivity].
      intros _. right. left. split; [reflexivity|]. left. eauto.
    + destruct (W (apt_install llvm)) as [code|y]; cbn.
      * destruct (Z.eqb_spec code 0) as [->|Hcode]; cbn.
        -- split; [|reflexivity].
           intros _. right. left. split; [reflexivity|]. right. eauto.
        -- split; [discriminate|].
           intros [(H & _)|[(_ & [[path H]|(_ & H)])|H]];
             try discriminate H. congruence.
      * split; [discriminate|].
        intros [(H & _)|[(_ & [[path H]|(_ & H)])|H]]; discriminate H.
  - split; auto.
  - split; [discriminate|].
    intros [(H & _)|[(H & _)|H]]; contradiction.
Qed.

(** X17.  Lines 34 to 59 end without an error exactly when the host is
    darwin, linux or win32 and the build script of that host exits with
    0. *)
Theorem build_fulfils_iff (inputs : Inputs) (odinPath : string) :
  snd (settle W (build os_platform inputs odinPath)) = Fulfilled tt <->
  supported os_platform = true
  /\ W (build_command (build_script os_platform) inputs odinPath)
     = Fulfilled 0%Z.
Proof.
  unfold build, build_command, build_script, supported.
  destruct (String.eqb_spec os_platform "darwin") as [->|Hdarwin];
    [|destruct (String.eqb_spec os_platform "linux") as [->|Hlinux];
      [|destruct (String.eqb_spec os_platform "win32") as [->|Hwin32]]];
    cbn;
    try (split; [discriminate|intros [H _]; discriminate H]);
    match goal with
    | |- context [W ?c] => destruct (W c) as [code|x]; cbn
    end;
    try (split; [discriminate|intros [_ H]; discriminate H]);
    destruct (Z.eqb_spec code 0) as [->|Hcode]; cbn;
    (split; [auto; discriminate|intros [_ H]; congruence]).
Qed.

(** X18.  [restoreCache] returns [true] exactly when the cache store
    restored the requested key and [git pull], run in the restored
    checkout, printed "Already up to date.". *)
Theorem restoreCache_true_iff (inputs : Inputs) (odinPath : string) :
  snd (settle W (restoreCache common inputs odinPath)) = Fulfilled true <->
  W (requested_key common inputs)
  = Fulfilled (Some (common_composeCacheKey common inputs))
  /\ exists output : ExecOutput,
      W (git_pull odinPath (odinVersion inputs)) = Fulfilled output
      /\ Js.includes (stdout output) "Already up to date." = true.
Proof.
  unfold restoreCache, pullUpdates, pullOdin, requested_key. cbn.
  destruct (W (cache_restoreCache (common_cachePaths common)
                 (common_composeCacheKey common inputs)))
    as [[restored|]|x]; cbn.
  - destruct (String.eqb_spec (common_composeCacheKey common inputs)
                restored) as [<-|Hother]; cbn.
    + destruct (W (git_pull odinPath (odinVersion inputs)))
        as [output|y]; cbn.
      * destruct (Js.includes (stdout output) "Already up to date.")
          eqn:Hcurrent; cbn.
        -- split; eauto.
        -- split; [discriminate|].
           intros (_ & output' & H & Hc). congruence.
      * split; [discriminate|].
        intros (_ & output' & H & _). discriminate H.
    + destruct (W (git_clone common (repository inputs)
                     (odinVersion inputs))) as [code|y]; cbn;
        [destruct (negb (Z.eqb code 0)); cbn|];
        (split; [discriminate|intros (H & _); congruence]).
  - destruct (W (git_clone common (repository inputs)
                   (odinVersion inputs))) as [code|y]; cbn;
      [destruct (negb (Z.eqb code 0)); cbn|];
      (split; [discriminate|intros (H & _); discriminate H]).
  - split; [discriminate|intros (H & _); discriminate H].
Qed.

End Further.

(** ** The further properties at sample runs *)

(** X3 at a stale hit on linux with LLVM installed. *)
Lemma run_succeeds_iff_witness :
  succeeded
    (run (Sample.common true) "linux"
       (Sample.world (Some Sample.key) Sample.fast_forward 0 0 0 true)
       [true])
  = true <->
  snd (settle (Sample.world (Some Sample.key) Sample.fast_forward 0 0 0 true)
         (pullOdinBuildDependencies "linux" "17")) = Fulfilled tt
  /\ (snd (settle
             (Sample.world (Some Sample.key) Sample.fast_forward 0 0 0 true)
             (checkout (Sample.common true) (Sample.inputs true)))
      = Fulfilled true
      \/ (snd (settle
                 (Sample.world (Some Sample.key) Sample.fast_forward
                    0 0 0 true)
                 (checkout (Sample.common true) (Sample.inputs true)))
          = Fulfilled false
          /\ snd (settle
                    (Sample.world (Some Sample.key) Sample.fast_forward
                       0 0 0 true)
                    (build "linux" (Sample.inputs true) "/home/runner/odin"))
             = Fulfilled tt)).
Proof.
  exact (@run_succeeds_iff (Sample.common true) "linux"
           (Sample.world (Some Sample.key) Sample.fast_forward 0 0 0 true)
           [true] (Sample.inputs true) eq_refl).
Defined.

(** X4 on win32 with the cache not checked. *)
Lemma build_runs_the_script_of_the_host_witness :
  started_command
    (Called (build_command "./build.bat" (Sample.inputs false)
               "/home/runner/odin"))
  = Some ("./build.bat", ["release"], Some "/home/runner/odin").
Proof.
  refine (@build_runs_the_script_of_the_host (Sample.common false) "win32"
            (Sample.world None Sample.up_to_date 0 0 0 true) [true]
            (Sample.inputs false)
            (Called (build_command "./build.bat" (Sample.inputs false)
                       "/home/runner/odin"))
            eq_refl _ eq_refl).
  vm_compute. repeat first [left; reflexivity | right].
Defined.

(** X10 with the cache store down, on darwin. *)
Lemma cache_store_failure_is_fatal_witness :
  let trace :=
    run (Sample.common true) "darwin" Outage.cache_store [true; false] in
  succeeded trace = false
  /\ count is_clone trace = 0
  /\ count is_pull trace = 0
  /\ count is_build trace = 0
  /\ count is_cache_hit_report trace = 0.
Proof.
  exact (@cache_store_failure_is_fatal (Sample.common true) "darwin"
           Outage.cache_store [true; false] (Sample.inputs true)
           "Cache service responded with 503" eq_refl eq_refl eq_refl).
Defined.

(** X11 with the remote out of reach, on linux. *)
Lemma failed_pull_is_fatal_witness :
  let trace :=
    run (Sample.common true) "linux" Outage.remote [true; true; false] in
  succeeded trace = false
  /\ count is_pull trace = 1
  /\ count is_clone trace = 0
  /\ count is_build trace = 0
  /\ count is_cache_hit_report trace = 0.
Proof.
  exact (@failed_pull_is_fatal (Sample.common true) "linux" Outage.remote
           [true; true; false] (Sample.inputs true)
           "The process '/usr/bin/git' failed with exit code 1"
           eq_refl eq_refl eq_refl eq_refl).
Defined.

(** X13 at a build that exits with 2. *)
Lemma reported_failure_is_a_rejection_witness :
  snd (settle (Sample.world None Sample.up_to_date 0 0 2 true)
         (checkout (Sample.common false) (Sample.inputs false)))
  = Rejected "Building Odin failed with exit code: 2"
  \/ snd (settle (Sample.world None Sample.up_to_date 0 0 2 true)
            (pullOdinBuildDependencies "darwin" "17"))
     = Rejected "Building Odin failed with exit code: 2"
  \/ snd (settle (Sample.world None Sample.up_to_date 0 0 2 true)
            (build "darwin" (Sample.inputs false) "/home/runner/odin"))
     = Rejected "Building Odin failed with exit code: 2".
Proof.
  refine (@reported_failure_is_a_rejection (Sample.common false) "darwin"
            (Sample.world None Sample.up_to_date 0 0 2 true) [true; false]
            (Sample.inputs false) "Building Odin failed with exit code: 2"
            eq_refl _).
  vm_compute. repeat first [left; reflexivity | right].
Defined.

(** X14 on darwin. *)
Lemma paths_added_to_the_execution_path_witness :
  let trace :=
    run (Sample.common true) "darwin"
      (Sample.world (Some Sample.key) Sample.up_to_date 0 0 0 true)
      [false; true] in
  hd_error trace = Some (Did (core_addPath "/home/runner/odin"))
  /\ count is_addPath trace = 2
  /\ ("darwin" = "darwin" ->
      In (Did (core_addPath "/usr/local/opt/llvm@17/bin")) trace).
Proof.
  exact (@paths_added_to_the_execution_path (Sample.common true) "darwin"
           (Sample.world (Some Sample.key) Sample.up_to_date 0 0 0 true)
           [false; true] (Sample.inputs true) eq_refl).
Defined.


(** ** Commands that fail, as the toolkit reports them *)

Section Deployed.

Variable common : Common.
Variable os_platform : string.
Variable W : World.

Lemma exec_settles_nonzero (ignoreReturnCode : bool) (toolPath : string)
  (N : Z) :
  N <> 0%Z ->
  Toolkit.exec_settles ignoreReturnCode toolPath N
  = if ignoreReturnCode then Fulfilled N
    else Rejected (Toolkit.exec_failure toolPath N).
Proof.
  intros HN. apply Z.eqb_neq in HN. unfold Toolkit.exec_settles.
  rewrite HN, orb_false_r. reflexivity.
Qed.

Lemma exec_failure_names_code (toolPath : string) (N : Z) :
  Js.includes (Toolkit.exec_failure toolPath N) (Js.number_toString N)
  = true.
Proof.
  unfold Toolkit.exec_failure. rewrite <- !append_assoc.
  apply includes_tail.
Qed.

Lemma build_rejection (inputs : Inputs) (odinPath script : string)
  (args : list string) (cwd : option string) (error : Error) :
  In (Called (exec_exec script args cwd))
     (or_setFailed (settle W (build os_platform inputs odinPath))) ->
  W (exec_exec script args cwd) = Rejected error ->
  exists events : list Event,
    or_setFailed (settle W (build os_platform inputs odinPath))
    = events ++ [Did (core_setFailed error)].
Proof.
  intros Hin Hcode. revert Hin. unfold build, build_command.
  destruct (String.eqb os_platform "darwin" || String.eqb os_platform "linux");
    [|destruct (String.eqb os_platform "win32")]; cbn.
  - destruct (W (exec_exec "./build_odin.sh" [buildType inputs]
                   (Some odinPath))) as [code|x] eqn:Hbuilt; cbn;
      [destruct (negb (Z.eqb code 0)) eqn:Hzero; cbn|];
      intros [H|[H|[H|H]]]; try discriminate H;
      try (apply (f_equal started_command) in H; cbn in H;
           injection H as <- <- <-;
           rewrite Hbuilt in Hcode;
           first [discriminate Hcode | injection Hcode as ->]);
      try (destruct H as [H|[]]; discriminate H);
      try contradiction.
    eexists [_; _; _]. reflexivity.
  - destruct (W (exec_exec "./build.bat" [buildType inputs]
                   (Some odinPath))) as [code|x] eqn:Hbuilt; cbn;
      [destruct (negb (Z.eqb code 0)) eqn:Hzero; cbn|];
      intros [H|[H|[H|H]]]; try discriminate H;
      try (apply (f_equal started_command) in H; cbn in H;
           injection H as <- <- <-;
           rewrite Hbuilt in Hcode;
           first [discriminate Hcode | injection Hcode as ->]);
      try (destruct H as [H|[]]; discriminate H);
      try contradiction.
    eexists [_; _; _]. reflexivity.
  - intros [H|[H|[H|[]]]]; discriminate H.
Qed.

(** C7, what the code does instead.  [pullOdin] calls [exec.exec] without
    [ignoreReturnCode], so a [git clone] that exits with a code other than
    zero rejects the call: [pullOdin] fails with the error of the toolkit,
    after the one clone, and the test of line 112 with its message that
    asks whether the version exists is never reached. *)
Theorem failed_clone_is_reported_by_the_toolkit
  (repository version toolPath : string) (code : Z) :
  W (git_clone common repository version)
  = Toolkit.exec_settles false toolPath code ->
  code <> 0%Z ->
  plain_decimal code ->
  settle W (pullOdin common repository version)
  = ([Called (git_clone common repository version)],
     Rejected (Toolkit.exec_failure toolPath code)).
Proof.
  intros Hclone Hcode _. rewrite (exec_settles_nonzero _ _ Hcode) in Hclone.
  unfold pullOdin. cbn. rewrite Hclone. reflexivity.
Qed.

(** C9.  Whenever a run starts the external build command and that
    command exits with a code [N] other than zero, the last thing the run
    does is to report a failure whose message contains [N]: the error of
    the toolkit, since [index.js] does not set [ignoreReturnCode], and the
    message of line 56 if the call returned the code. *)
Theorem failed_build_is_reported_with_its_code (schedule : list bool)
  (script : string) (args : list string) (cwd : option string)
  (ignoreReturnCode : bool) (toolPath : string) (N : Z) :
  let trace := run common os_platform W schedule in
  let message :=
    if ignoreReturnCode
    then ("Building Odin failed with exit code: "
          ++ Js.number_toString N)%string
    else Toolkit.exec_failure toolPath N in
  In (Called (exec_exec script args cwd)) trace ->
  is_build (Called (exec_exec script args cwd)) = true ->
  W (exec_exec script args cwd)
  = Toolkit.exec_settles ignoreReturnCode toolPath N ->
  N <> 0%Z ->
  plain_decimal N ->
  (exists events : list Event,
      trace = events ++ [Did (core_setFailed message)])
  /\ Js.includes message (Js.number_toString N) = true.
Proof.
  intros trace message Hin Hbuild Hcode HN _. subst trace message.
  rewrite (exec_settles_nonzero _ _ HN) in Hcode.
  split; [|destruct ignoreReturnCode;
           [apply includes_tail|apply exec_failure_names_code]].
  destruct (common_getInputs common) as [error|inputs] eqn:Hinputs.
  { unfold run in Hin. rewrite Hinputs in Hin.
    destruct Hin as [H|[]]. discriminate H. }
  destruct (@run_parts common os_platform W schedule inputs Hinputs)
    as (joined & tail & background & Hrun & Hperm & Hcases).
  pose proof (checkout_quiet common W inputs) as (Hquiet1 & _).
  pose proof (dependencies_quiet os_platform W (llvmVersion inputs))
    as (Hquiet2 & _).
  cbv zeta in *.
  assert (Hjoined : forall event,
             In event (joined ++ background) -> is_build event = false).
  { intros event Hevent.
    apply (Permutation_in _ Hperm), in_app_or in Hevent.
    destruct Hevent as [Hevent|Hevent]; eauto using count_zero_In. }
  assert (Htailed : In (Called (exec_exec script args cwd)) tail).
  { rewrite Hrun in Hin. destruct Hin as [H|Hin]; [discriminate H|].
    apply in_app_or in Hin. destruct Hin as [Hin|Hin].
    - rewrite (Hjoined _ (in_or_app _ _ _ (or_introl Hin))) in Hbuild.
      discriminate.
    - apply in_app_or in Hin. destruct Hin as [Hin|Hin]; [exact Hin|].
      rewrite (Hjoined _ (in_or_app _ _ _ (or_intror Hin))) in Hbuild.
      discriminate. }
  destruct Hcases
    as [(_ & _ & -> & _)|[(_ & _ & -> & ->)|(reported & -> & _)]].
  - destruct Htailed.
  - assert (Hends : exists events : list Event,
               or_setFailed (settle W (build os_platform inputs
                                         (common_odinPath common)))
               = events
                 ++ [Did (core_setFailed
                            (if ignoreReturnCode
                             then ("Building Odin failed with exit code: "
                                   ++ Js.number_toString N)%string
                             else Toolkit.exec_failure toolPath N))]).
    { destruct ignoreReturnCode.
      - apply (@build_failure os_platform W inputs (common_odinPath common)
                 script args cwd N Htailed Hcode HN).
      - apply (@build_rejection inputs (common_odinPath common) script args
                 cwd _ Htailed Hcode). }
    destruct Hends as [events Hevents].
    rewrite Hrun, Hevents, app_nil_r.
    exists (Did (core_addPath (common_odinPath common))
              :: joined ++ events).
    cbn. rewrite app_assoc. reflexivity.
  - destruct Htailed as [H|[]]. discriminate H.
Qed.

(** X15.  On darwin a [brew install] that exits with a code [N] other
    than zero makes [pullOdinBuildDependencies] reject with a message that
    contains [N]: the error of the toolkit, since [index.js] does not set
    [ignoreReturnCode], so that the message of line 190 is not the one
    reported; that message only if the call returned the code. *)
Theorem failed_brew_install_rejects_with_its_code (llvm toolPath : string)
  (ignoreReturnCode : bool) (N : Z) :
  W (brew_install llvm)
  = Toolkit.exec_settles ignoreReturnCode toolPath N ->
  N <> 0%Z ->
  plain_decimal N ->
  let message :=
    if ignoreReturnCode
    then ("Installing Odin dependencies failed with exit code: "
          ++ Js.number_toString N)%string
    else Toolkit.exec_failure toolPath N in
  settle W (pullOdinBuildDependencies "darwin" llvm)
  = ([Did (core_addPath ("/usr/local/opt/llvm@" ++ llvm ++ "/bin")%string);
      Called (brew_install llvm)],
     Rejected message)
  /\ Js.includes message (Js.number_toString N) = true.
Proof.
  intros Hbrew HN _ message. subst message.
  rewrite (exec_settles_nonzero _ _ HN) in Hbrew.
  split; [|destruct ignoreReturnCode;
           [apply includes_tail|apply exec_failure_names_code]].
  unfold pullOdinBuildDependencies, check_install. cbn -[append].
  rewrite Hbrew. apply Z.eqb_neq in HN.
  destruct ignoreReturnCode; cbn -[append]; [rewrite HN|]; reflexivity.
Qed.

End Deployed.

(** ** The failing commands at sample runs *)

(** C3 as the specification states it fails on darwin when [brew install]
    exits with 1 and [exec.exec] rejects: the key is restored and the pull
    brought changes, yet [cache-hit] is never set to [false] and the build
    is never started. *)
Lemma stale_hit_with_rejected_install_does_not_build :
  common_cacheCheck (Sample.common true) (Sample.inputs true) = true
  /\ Toolkit.world (Some Sample.key) Sample.fast_forward 0 1 0 true
       (requested_key (Sample.common true) (Sample.inputs true))
     = Fulfilled (Some (common_composeCacheKey (Sample.common true)
                          (Sample.inputs true)))
  /\ snd (settle
            (Toolkit.world (Some Sample.key) Sample.fast_forward 0 1 0 true)
            (pullUpdates "/home/runner/odin" "v1.2.0")) = Fulfilled false
  /\ snd (settle
            (Toolkit.world (Some Sample.key) Sample.fast_forward 0 1 0 true)
            (pullOdinBuildDependencies "darwin" "17"))
     = Rejected "The process 'brew' failed with exit code 1"
  /\ count (sets_cache_hit false)
       (run (Sample.common true) "darwin"
          (Toolkit.world (Some Sample.key) Sample.fast_forward 0 1 0 true)
          [true; false; true])
     = 0
  /\ count is_build
       (run (Sample.common true) "darwin"
          (Toolkit.world (Some Sample.key) Sample.fast_forward 0 1 0 true)
          [true; false; true])
     = 0.
Proof. repeat split. Qed.

(** C7 at a version that does not exist: [git clone] exits with 128, the
    call rejects, and the error [pullOdin] fails with does not ask whether
    the version exists. *)
Lemma failed_clone_is_reported_by_the_toolkit_witness :
  settle (Toolkit.world None Sample.up_to_date 128 0 0 true)
    (pullOdin (Sample.common false) "https://example/compiler" "v9.9.9")
  = ([Called (git_clone (Sample.common false) "https://example/compiler"
                "v9.9.9")],
     Rejected "The process 'git' failed with exit code 128")
  /\ Js.includes "The process 'git' failed with exit code 128"
       "are you sure that version exists?" = false.
Proof.
  split; [|reflexivity].
  refine (@failed_clone_is_reported_by_the_toolkit (Sample.common false)
            (Toolkit.world None Sample.up_to_date 128 0 0 true)
            "https://example/compiler" "v9.9.9" "git" 128 eq_refl _ _).
  - discriminate.
  - reflexivity.
Defined.

(** C9 on linux, the build script exiting with 2 and [exec.exec]
    rejecting. *)
Lemma failed_build_is_reported_with_its_code_witness :
  (exists events : list Event,
      run (Sample.common true) "linux"
        (Toolkit.world None Sample.up_to_date 0 0 2 true) [false; true]
      = events
        ++ [Did (core_setFailed
                   "The process './build_odin.sh' failed with exit code 2")])
  /\ Js.includes "The process './build_odin.sh' failed with exit code 2" "2"
     = true.
Proof.
  refine (@failed_build_is_reported_with_its_code (Sample.common true)
            "linux" (Toolkit.world None Sample.up_to_date 0 0 2 true)
            [false; true] "./build_odin.sh" ["release"]
            (Some "/home/runner/odin") false "./build_odin.sh" 2
            _ eq_refl eq_refl _ _).
  - vm_compute. repeat first [left; reflexivity | right].
  - discriminate.
  - reflexivity.
Defined.

(** X9 at a confirmed hit on linux where LLVM is missing: [io.which]
    resolves to the empty string and no package manager is started. *)
Lemma package_manager_depends_on_host_only_witness :
  count is_install
    (run (Sample.common true) "linux"
       (Toolkit.world (Some Sample.key) Sample.up_to_date 0 0 0 false)
       [false; true])
  = 0.
Proof.
  exact (@package_manager_depends_on_host_only (Sample.common true) "linux"
           (Toolkit.world (Some Sample.key) Sample.up_to_date 0 0 0 false)
           [false; true] (Sample.inputs true) eq_refl).
Defined.

(** X15 at a [brew install] that exits with 1. *)
Lemma failed_brew_install_rejects_with_its_code_witness :
  settle (Toolkit.world None Sample.up_to_date 0 1 0 true)
    (pullOdinBuildDependencies "darwin" "17")
  = ([Did (core_addPath "/usr/local/opt/llvm@17/bin");
      Called (brew_install "17")],
     Rejected "The process 'brew' failed with exit code 1")
  /\ Js.includes "The process 'brew' failed with exit code 1" "1" = true.
Proof.
  refine (@failed_brew_install_rejects_with_its_code
            (Toolkit.world None Sample.up_to_date 0 1 0 true) "17" "brew"
            false 1 eq_refl _ _).
  - discriminate.
  - reflexivity.
Defined.
